(** * Trend analysis engine of [shared/allure-config/trend-analysis.py]

    A shallow embedding of the [TrendAnalyzer] class: result parsing,
    failure categorisation, build aggregation, history import, the
    windowed trend computations, the data of the generated report and the
    loading sequence of [main], followed by the properties stated about
    them.

    Modelling conventions.
    - Python [str] values are [string]s; [str.lower] acts on the ASCII
      letters.
    - Python [float] values are exact rationals ([Q]); rounding, infinities
      and NaN are outside the model.
    - A [datetime] is an integer count of microseconds ([Z]); a
      [timedelta] of [d] days is [d * 86400 * 10^6] microseconds.  The
      calendar range of [datetime] is outside the model.
    - A [dict] / [defaultdict] / [Counter] is an association list in
      first-insertion order of its keys, which is the iteration order of a
      Python dict.
    - A raised exception is the [Raise] result of the [result] monad. *)

From Stdlib Require Import List String Ascii Bool Arith ZArith QArith Lia Lqa.
From Stdlib Require Import Permutation Sorted Morphisms Setoid DecimalString.
Import ListNotations.

Close Scope Q_scope.

Set Implicit Arguments.

(* ================================================================== *)
(** ** Exceptions *)

Inductive exn : Type :=
| StatisticsError
| ZeroDivisionError
| ValueError
| KeyError
| AttributeError.

Inductive result (A : Type) : Type :=
| Ok (a : A)
| Raise (e : exn).

Arguments Ok {A} a.
Arguments Raise {A} e.

Definition bind {A B : Type} (m : result A) (k : A -> result B) : result B :=
  match m with
  | Ok a => k a
  | Raise e => Raise e
  end.

Notation "x <- m ;; k" := (bind m (fun x => k))
  (at level 61, m at next level, right associativity).

(* ================================================================== *)
(** ** Strings *)

Module Str.

Local Open Scope string_scope.

(** [c.lower()] on one character. *)
Definition lower_ascii (c : ascii) : ascii :=
  let n := nat_of_ascii c in
  if (65 <=? n)%nat && (n <=? 90)%nat then ascii_of_nat (n + 32) else c.

(** [s.lower()]. *)
Fixpoint lower (s : string) : string :=
  match s with
  | EmptyString => EmptyString
  | String c r => String (lower_ascii c) (lower r)
  end.

(** [s.startswith(p)]. *)
Fixpoint starts_with (p s : string) : bool :=
  match p, s with
  | EmptyString, _ => true
  | String _ _, EmptyString => false
  | String a p', String b s' => Ascii.eqb a b && starts_with p' s'
  end.

(** [kw in s]: [kw] occurs in [s] as a contiguous substring. *)
Fixpoint contains (kw s : string) : bool :=
  starts_with kw s ||
  match s with
  | EmptyString => false
  | String _ s' => contains kw s'
  end.

(** Truthiness of a [str]: the empty string is falsy. *)
Definition truthy (s : string) : bool :=
  match s with
  | EmptyString => false
  | String _ _ => true
  end.

End Str.

(* ================================================================== *)
(** ** Failure classifier *)

Local Open Scope string_scope.
Local Open Scope list_scope.

Definition product_keywords : list string :=
  ["assertion"; "expect"; "should"].
Definition test_keywords : list string :=
  ["typeerror"; "referenceerror"; "syntaxerror"; "importerror"].
Definition infrastructure_keywords : list string :=
  ["timeout"; "connection"; "network"; "server"].
Definition performance_keywords : list string :=
  ["performance"; "slow"; "memory"].

(** [any(keyword in text for keyword in keywords)]. *)
Definition any_keyword_in (keywords : list string) (text : string) : bool :=
  existsb (fun keyword => Str.contains keyword text) keywords.

(** [TrendAnalyzer._categorize_test]. *)
Definition _categorize_test
    (name status : string) (error_message : option string) : string :=
  if status =? "passed" then "passed"
  else
    match error_message with
    | None => "unknown_failure"
    | Some msg =>
      if negb (Str.truthy msg) then "unknown_failure"
      else
        let error_lower := Str.lower msg in
        if any_keyword_in product_keywords error_lower then "product_defect"
        else if any_keyword_in test_keywords error_lower then "test_defect"
        else if any_keyword_in infrastructure_keywords error_lower
             then "infrastructure"
        else if any_keyword_in performance_keywords error_lower
             then "performance"
        else "other_failure"
    end.

(** *** Reference definition of the classifier, after the specification *)

(** Case-insensitive substring search: the lower-cased text splits around
    the keyword. *)
Definition mentions (text keyword : string) : Prop :=
  exists pre suf, Str.lower text = (pre ++ keyword ++ suf)%string.

Definition mentions_any (text : string) (keywords : list string) : Prop :=
  exists keyword, In keyword keywords /\ mentions text keyword.

(** A result carries error text when a message is present and not empty. *)
Definition error_text (error_message : option string) (text : string) : Prop :=
  error_message = Some text /\ text <> "".

Definition no_error_text (error_message : option string) : Prop :=
  forall text, ~ error_text error_message text.

(** The seven rules, each guarded by the failure of the ones before it. *)
Inductive classify_spec : string -> option string -> string -> Prop :=
| rule_passed e :
    classify_spec "passed" e "passed"
| rule_unknown status e :
    status <> "passed" ->
    no_error_text e ->
    classify_spec status e "unknown_failure"
| rule_product status e text :
    status <> "passed" ->
    error_text e text ->
    mentions_any text ["assertion"; "expect"; "should"] ->
    classify_spec status e "product_defect"
| rule_test status e text :
    status <> "passed" ->
    error_text e text ->
    ~ mentions_any text ["assertion"; "expect"; "should"] ->
    mentions_any text
      ["typeerror"; "referenceerror"; "syntaxerror"; "importerror"] ->
    classify_spec status e "test_defect"
| rule_infrastructure status e text :
    status <> "passed" ->
    error_text e text ->
    ~ mentions_any text ["assertion"; "expect"; "should"] ->
    ~ mentions_any text
      ["typeerror"; "referenceerror"; "syntaxerror"; "importerror"] ->
    mentions_any text ["timeout"; "connection"; "network"; "server"] ->
    classify_spec status e "infrastructure"
| rule_performance status e text :
    status <> "passed" ->
    error_text e text ->
    ~ mentions_any text ["assertion"; "expect"; "should"] ->
    ~ mentions_any text
      ["typeerror"; "referenceerror"; "syntaxerror"; "importerror"] ->
    ~ mentions_any text ["timeout"; "connection"; "network"; "server"] ->
    mentions_any text ["performance"; "slow"; "memory"] ->
    classify_spec status e "performance"
| rule_other status e text :
    status <> "passed" ->
    error_text e text ->
    ~ mentions_any text ["assertion"; "expect"; "should"] ->
    ~ mentions_any text
      ["typeerror"; "referenceerror"; "syntaxerror"; "importerror"] ->
    ~ mentions_any text ["timeout"; "connection"; "network"; "server"] ->
    ~ mentions_any text ["performance"; "slow"; "memory"] ->
    classify_spec status e "other_failure".

(* ================================================================== *)
(** ** Python built-ins used by the analyzer *)

Module Py.

(** [sum(xs)] over floats: left-to-right addition from [0]. *)
Definition sum (xs : list Q) : Q := fold_left Qplus xs 0%Q.

(** [sum(xs)] over ints. *)
Definition sum_int (xs : list Z) : Z := fold_left Z.add xs 0%Z.

(** [len(xs)] as a Python int. *)
Definition len {A : Type} (xs : list A) : Z := Z.of_nat (List.length xs).

(** [a / b]: true division. *)
Definition true_div (a b : Q) : result Q :=
  if Qeq_bool b 0 then Raise ZeroDivisionError else Ok (a / b)%Q.

(** [statistics.mean(xs)]. *)
Definition mean (xs : list Q) : result Q :=
  match xs with
  | [] => Raise StatisticsError
  | _ :: _ => Ok (sum xs / inject_Z (len xs))%Q
  end.

(** [min(xs)] over ints. *)
Definition min (xs : list Z) : result Z :=
  match xs with
  | [] => Raise ValueError
  | x :: xs' => Ok (fold_left Z.min xs' x)
  end.

(** [max(xs)] over a sequence whose first element is [x]. *)
Definition max_from (x : Z) (xs' : list Z) : Z := fold_left Z.max xs' x.

(** [range(n)]. *)
Definition range (n : nat) : list nat := seq 0 n.

(** [len(set(xs))] for strings. *)
Definition distinct (xs : list string) : Z := len (nodup string_dec xs).

(** [d[k].append(v)] on a [defaultdict(list)]. *)
Fixpoint dict_append {V : Type} (k : string) (v : V)
    (d : list (string * list V)) : list (string * list V) :=
  match d with
  | [] => [(k, [v])]
  | (k', vs) :: d' =>
    if String.eqb k' k then (k', vs ++ [v]) :: d'
    else (k', vs) :: dict_append k v d'
  end.

(** The loop [for x in xs: d[key(x)].append(val(x))] from an empty
    [defaultdict(list)]. *)
Definition group_by {A V : Type} (key : A -> string) (val : A -> V)
    (xs : list A) : list (string * list V) :=
  fold_left (fun d x => dict_append (key x) (val x) d) xs [].

(** [c[k] += 1] on a [Counter]. *)
Fixpoint counter_incr (k : string) (c : list (string * Z))
    : list (string * Z) :=
  match c with
  | [] => [(k, 1%Z)]
  | (k', n) :: c' =>
    if String.eqb k' k then (k', (n + 1)%Z) :: c'
    else (k', n) :: counter_incr k c'
  end.

(** [Counter(xs)]. *)
Definition Counter (xs : list string) : list (string * Z) :=
  fold_left (fun c k => counter_incr k c) xs [].

(** [dict.get(k)] on a dict built by inserting the pairs of [kvs] in
    order: the last pair with key [k] is the one that stays. *)
Fixpoint dict_get {V : Type} (k : string) (kvs : list (string * V))
    : option V :=
  match kvs with
  | [] => None
  | (k', v) :: kvs' =>
    match dict_get k kvs' with
    | Some v' => Some v'
    | None => if String.eqb k' k then Some v else None
    end
  end.

(** Insertion of [x] into a list ordered by [le], before the first
    element it is [le] to. *)
Fixpoint insert_by {A : Type} (le : A -> A -> bool) (x : A) (l : list A)
    : list A :=
  match l with
  | [] => [x]
  | y :: l' => if le x y then x :: l else y :: insert_by le x l'
  end.

(** A stable sort: [list.sort] and [sorted] keep the relative order of
    elements that compare equal. *)
Fixpoint stable_sort {A : Type} (le : A -> A -> bool) (l : list A) : list A :=
  match l with
  | [] => []
  | x :: l' => insert_by le x (stable_sort le l')
  end.

(** [xs.sort(key=key)]. *)
Definition sort_by_key {A : Type} (key : A -> Z) (l : list A) : list A :=
  stable_sort (fun x y => (key x <=? key y)%Z) l.

(** [sorted(xs, key=key, reverse=True)]. *)
Definition sort_by_key_reverse {A : Type} (key : A -> Z) (l : list A)
    : list A :=
  stable_sort (fun x y => (key y <=? key x)%Z) l.

(** [str(n)] for an int. *)
Definition str_of_int (n : Z) : string := NilZero.string_of_int (Z.to_int n).

End Py.

(* ================================================================== *)
(** ** Data model *)

Module TestResult.
Record t : Type := mk {
  name : string;
  status : string;
  duration : Q;
  timestamp : Z;
  build_number : string;
  branch : string;
  framework : string;
  error_message : option string;
  category : option string
}.
End TestResult.

Module BuildSummary.
Record t : Type := mk {
  build_number : string;
  timestamp : Z;
  branch : string;
  framework : string;
  total_tests : Z;
  passed_tests : Z;
  failed_tests : Z;
  skipped_tests : Z;
  broken_tests : Z;
  duration : Q;
  pass_rate : Q
}.
End BuildSummary.

Module TrendMetrics.
Record t : Type := mk {
  average_pass_rate : Q;
  pass_rate_trend : string;
  average_duration : Q;
  duration_trend : string;
  total_builds : Z;
  flaky_tests : list string;
  most_failed_tests : list (string * Z);
  failure_categories : list (string * Z);
  performance_regressions : list string
}.
End TrendMetrics.

(** The mutable attributes of a [TrendAnalyzer] instance. *)
Module TrendAnalyzer.
Record t : Type := mk {
  project_name : string;
  framework : string;
  test_results : list TestResult.t;
  build_summaries : list BuildSummary.t
}.

(** [TrendAnalyzer.__init__]. *)
Definition init (project_name framework : string) : t :=
  mk project_name framework [] [].
End TrendAnalyzer.

(** *** Input records *)

(** One entry of the ["labels"] array; a key that is absent is [None]. *)
Module Label.
Record t : Type := mk {
  name : option string;
  value : option string
}.
End Label.

(** One [*-result.json] object.  [statusDetails] is the ["message"] entry
    of the nested object when that object is present. *)
Module RawResult.
Record t : Type := mk {
  fullName : option string;
  name : option string;
  status : option string;
  start : option Z;
  stop : option Z;
  labels : option (list Label.t);
  statusDetails : option (option string)
}.
End RawResult.

(** One object of the history feed. *)
Module HistoryEntry.
Record time_t : Type := mk_time {
  start : option Z;
  duration : option Z
}.
Record statistic_t : Type := mk_statistic {
  total : option Z;
  passed : option Z;
  failed : option Z;
  skipped : option Z;
  broken : option Z
}.
Record t : Type := mk {
  buildOrder : option Z;
  time : option time_t;
  statistic : option statistic_t
}.
End HistoryEntry.

(** An element of the history feed: an object, or a JSON value that is
    not an object, on which [build_data.get] raises. *)
Inductive history_item : Type :=
| NotAnObject
| Build (e : HistoryEntry.t).

(* ================================================================== *)
(** ** Result parser *)

(** [d.get(k, default)] on an optional field. *)
Definition get_or {A : Type} (field : option A) (default : A) : A :=
  match field with
  | Some a => a
  | None => default
  end.

(** [datetime.datetime.fromtimestamp(ms / 1000.0)]. *)
Definition fromtimestamp_ms (ms : Z) : Z := (ms * 1000)%Z.

(** [{label['name']: label['value'] for label in labels}], as the pairs in
    insertion order; an entry lacking either key raises [KeyError]. *)
Fixpoint labels_dict (labels : list Label.t) : result (list (string * string)) :=
  match labels with
  | [] => Ok []
  | label :: rest =>
    match Label.name label, Label.value label with
    | Some n, Some v => d <- labels_dict rest ;; Ok ((n, v) :: d)
    | _, _ => Raise KeyError
    end
  end.

(** The body of the [try] block of [_parse_test_result]; [now] is the
    reading of [datetime.datetime.now()]. *)
Definition parse_test_result_body
    (self_framework : string) (now : Z) (data : RawResult.t)
    : result TestResult.t :=
  let name :=
    get_or (RawResult.fullName data) (get_or (RawResult.name data) "Unknown") in
  let status := Str.lower (get_or (RawResult.status data) "unknown") in
  let start_time := get_or (RawResult.start data) 0%Z in
  let stop_time := get_or (RawResult.stop data) 0%Z in
  let duration := (inject_Z (stop_time - start_time) / 1000)%Q in
  let timestamp :=
    if (start_time =? 0)%Z then now else fromtimestamp_ms start_time in
  labels <- labels_dict (get_or (RawResult.labels data) []) ;;
  let build_number := get_or (Py.dict_get "build" labels) "unknown" in
  let branch := get_or (Py.dict_get "branch" labels) "unknown" in
  let framework := get_or (Py.dict_get "framework" labels) self_framework in
  let error_message :=
    match RawResult.statusDetails data with
    | Some (Some message) => Some message
    | _ => None
    end in
  let category := _categorize_test name status error_message in
  Ok (TestResult.mk name status duration timestamp build_number branch
        framework error_message (Some category)).

(** [TrendAnalyzer._parse_test_result]: [None] when the body raises. *)
Definition _parse_test_result
    (self_framework : string) (now : Z) (data : RawResult.t)
    : option TestResult.t :=
  match parse_test_result_body self_framework now data with
  | Ok r => Some r
  | Raise _ => None
  end.

(* ================================================================== *)
(** ** Build aggregator *)

(** [sum(1 for r in results if r.status == s)]. *)
Definition count_status (s : string) (results : list TestResult.t) : Z :=
  Py.sum_int
    (map (fun _ => 1%Z)
       (filter (fun r => String.eqb (TestResult.status r) s) results)).

(** [(passed / total * 100) if total > 0 else 0]. *)
Definition pass_rate_of (passed_tests total_tests : Z) : Q :=
  if (0 <? total_tests)%Z
  then (inject_Z passed_tests / inject_Z total_tests * 100)%Q
  else 0%Q.

(** The body of the loop over [builds.items()]; [None] is the [continue]
    taken for an empty group. *)
Definition summarize (build_number : string) (results : list TestResult.t)
    : option BuildSummary.t :=
  match results with
  | [] => None
  | first :: rest =>
    let total_tests := Py.len results in
    let passed_tests := count_status "passed" results in
    let failed_tests := count_status "failed" results in
    let skipped_tests := count_status "skipped" results in
    let broken_tests := count_status "broken" results in
    let total_duration := Py.sum (map TestResult.duration results) in
    let pass_rate := pass_rate_of passed_tests total_tests in
    let timestamp :=
      Py.max_from (TestResult.timestamp first)
        (map TestResult.timestamp rest) in
    Some (BuildSummary.mk build_number timestamp
            (TestResult.branch first) (TestResult.framework first)
            total_tests passed_tests failed_tests skipped_tests broken_tests
            total_duration pass_rate)
  end.

(** The summaries appended by the loop over [builds.items()]. *)
Definition aggregate (results : list TestResult.t) : list BuildSummary.t :=
  fold_left
    (fun acc item =>
       match summarize (fst item) (snd item) with
       | Some summary => acc ++ [summary]
       | None => acc
       end)
    (Py.group_by TestResult.build_number (fun r => r) results) [].

(** [TrendAnalyzer._load_build_summaries]: the summaries of all results
    held so far are appended, then the whole collection is sorted. *)
Definition _load_build_summaries (self : TrendAnalyzer.t) : TrendAnalyzer.t :=
  TrendAnalyzer.mk
    (TrendAnalyzer.project_name self)
    (TrendAnalyzer.framework self)
    (TrendAnalyzer.test_results self)
    (Py.sort_by_key BuildSummary.timestamp
       (TrendAnalyzer.build_summaries self
          ++ aggregate (TrendAnalyzer.test_results self))).

(** [TrendAnalyzer.load_results_from_directory]: [None] is a directory
    that does not exist; a file is [None] when reading or decoding it
    raises. *)
Definition load_results_from_directory
    (self : TrendAnalyzer.t) (now : Z)
    (results_dir : option (list (option RawResult.t))) : TrendAnalyzer.t :=
  match results_dir with
  | None => self
  | Some files =>
    let parsed :=
      fold_left
        (fun acc file =>
           match file with
           | None => acc
           | Some data =>
             match _parse_test_result (TrendAnalyzer.framework self) now data with
             | Some r => acc ++ [r]
             | None => acc
             end
           end)
        files (TrendAnalyzer.test_results self) in
    _load_build_summaries
      (TrendAnalyzer.mk (TrendAnalyzer.project_name self)
         (TrendAnalyzer.framework self) parsed
         (TrendAnalyzer.build_summaries self))
  end.

(* ================================================================== *)
(** ** History importer *)

(** The body of the [try] block of [_parse_history_data]. *)
Definition history_summary
    (self_framework : string) (now : Z) (item : history_item)
    : result BuildSummary.t :=
  match item with
  | NotAnObject => Raise AttributeError
  | Build build_data =>
    let build_number :=
      match HistoryEntry.buildOrder build_data with
      | Some n => Py.str_of_int n
      | None => "unknown"
      end in
    let time := HistoryEntry.time build_data in
    let timestamp_ms :=
      match time with
      | Some t => get_or (HistoryEntry.start t) 0%Z
      | None => 0%Z
      end in
    let timestamp :=
      if (timestamp_ms =? 0)%Z then now else fromtimestamp_ms timestamp_ms in
    let stat (field : HistoryEntry.statistic_t -> option Z) : Z :=
      match HistoryEntry.statistic build_data with
      | Some s => get_or (field s) 0%Z
      | None => 0%Z
      end in
    let total_tests := stat HistoryEntry.total in
    let passed_tests := stat HistoryEntry.passed in
    let failed_tests := stat HistoryEntry.failed in
    let skipped_tests := stat HistoryEntry.skipped in
    let broken_tests := stat HistoryEntry.broken in
    let duration_ms :=
      match time with
      | Some t => get_or (HistoryEntry.duration t) 0%Z
      | None => 0%Z
      end in
    let duration := (inject_Z duration_ms / 1000)%Q in
    let pass_rate := pass_rate_of passed_tests total_tests in
    Ok (BuildSummary.mk build_number timestamp "unknown" self_framework
          total_tests passed_tests failed_tests skipped_tests broken_tests
          duration pass_rate)
  end.

(** [TrendAnalyzer._parse_history_data]: each entry is appended to the
    collection, an entry whose body raises is passed over. *)
Definition _parse_history_data
    (self : TrendAnalyzer.t) (now : Z) (history_data : list history_item)
    : TrendAnalyzer.t :=
  TrendAnalyzer.mk
    (TrendAnalyzer.project_name self)
    (TrendAnalyzer.framework self)
    (TrendAnalyzer.test_results self)
    (fold_left
       (fun acc item =>
          match history_summary (TrendAnalyzer.framework self) now item with
          | Ok summary => acc ++ [summary]
          | Raise _ => acc
          end)
       history_data (TrendAnalyzer.build_summaries self)).

(** [TrendAnalyzer.load_history_from_directory]: [None] when the directory
    or [history.json] is missing or cannot be decoded. *)
Definition load_history_from_directory
    (self : TrendAnalyzer.t) (now : Z)
    (history : option (list history_item)) : TrendAnalyzer.t :=
  match history with
  | None => self
  | Some history_data => _parse_history_data self now history_data
  end.

(* ================================================================== *)
(** ** Trend engine *)

(** [a > b] on floats. *)
Definition Qgt_bool (a b : Q) : bool := negb (Qle_bool a b).

(** [a < b] on floats. *)
Definition Qlt_bool (a b : Q) : bool := negb (Qle_bool b a).

(** [datetime.datetime.now() - datetime.timedelta(days=days_back)]. *)
Definition cutoff_date (now days_back : Z) : Z :=
  (now - days_back * 86400000000)%Z.

(** A loop [for x in items: ...] whose body may raise. *)
Fixpoint for_each {A S : Type} (body : S -> A -> result S)
    (items : list A) (s : S) : result S :=
  match items with
  | [] => Ok s
  | x :: rest => s' <- body s x ;; for_each body rest s'
  end.

(** The index of a position as a float. *)
Definition Qidx (i : nat) : Q := inject_Z (Z.of_nat i).

(** [x_mean = (n - 1) / 2]. *)
Definition x_mean (n : nat) : Q := (inject_Z (Z.of_nat n - 1) / 2)%Q.

(** [sum((i - x_mean) * (values[i] - y_mean) for i in range(n))]; every
    index of [range(n)] is within [values]. *)
Definition numerator_of (values : list Q) (y_mean : Q) : Q :=
  let n := List.length values in
  Py.sum
    (map (fun i => ((Qidx i - x_mean n) * (nth i values 0 - y_mean))%Q)
       (Py.range n)).

(** [sum((i - x_mean) ** 2 for i in range(n))]. *)
Definition denominator_of (n : nat) : Q :=
  Py.sum (map (fun i => ((Qidx i - x_mean n) ^ 2)%Q) (Py.range n)).

(** The comparison of the slope with the threshold [0.1]. *)
Definition direction (slope : Q) : string :=
  let threshold := 0.1%Q in
  if Qgt_bool slope threshold then "improving"
  else if Qlt_bool slope (- threshold) then "declining"
  else "stable".

(** [TrendAnalyzer._analyze_trend]. *)
Definition _analyze_trend (values : list Q) (reverse : bool) : result string :=
  if (Py.len values <? 3)%Z then Ok "unknown"
  else
    let n := List.length values in
    y_mean <- Py.mean values ;;
    let numerator := numerator_of values y_mean in
    let denominator := denominator_of n in
    if Qeq_bool denominator 0 then Ok "stable"
    else
      slope <- Py.true_div numerator denominator ;;
      let slope := if reverse then (- slope)%Q else slope in
      Ok (direction slope).

(** [[r for r in self.test_results if r.timestamp >= cutoff_date]]. *)
Definition recent_results (self : TrendAnalyzer.t) (now days_back : Z)
    : list TestResult.t :=
  filter (fun r => (cutoff_date now days_back <=? TestResult.timestamp r)%Z)
    (TrendAnalyzer.test_results self).

(** The body of the loop over [test_results.items()] in
    [_identify_flaky_tests]. *)
Definition flaky_step (flaky_tests : list string)
    (item : string * list string) : result (list string) :=
  let test_name := fst item in
  let statuses := snd item in
  if (1 <? Py.distinct statuses)%Z && (3 <=? Py.len statuses)%Z then
    let status_counts := Py.Counter statuses in
    minority_count <- Py.min (map snd status_counts) ;;
    flakiness_ratio <-
      Py.true_div (inject_Z minority_count) (inject_Z (Py.len statuses)) ;;
    if Qle_bool 0.2 flakiness_ratio then Ok (flaky_tests ++ [test_name])
    else Ok flaky_tests
  else Ok flaky_tests.

(** [TrendAnalyzer._identify_flaky_tests]. *)
Definition _identify_flaky_tests
    (self : TrendAnalyzer.t) (now days_back : Z) : result (list string) :=
  let test_results :=
    Py.group_by TestResult.name TestResult.status
      (recent_results self now days_back) in
  flaky_tests <- for_each flaky_step test_results [] ;;
  Ok (firstn 10 flaky_tests).

(** [[r for r in self.test_results
      if r.timestamp >= cutoff_date and r.status == 'failed']]. *)
Definition recent_failures (self : TrendAnalyzer.t) (now days_back : Z)
    : list TestResult.t :=
  filter
    (fun r => (cutoff_date now days_back <=? TestResult.timestamp r)%Z
              && String.eqb (TestResult.status r) "failed")
    (TrendAnalyzer.test_results self).

(** [Counter.most_common(n)]: descending by count, ties in insertion
    order. *)
Definition most_common (n : nat) (c : list (string * Z)) : list (string * Z) :=
  firstn n (Py.sort_by_key_reverse snd c).

(** [TrendAnalyzer._identify_most_failed_tests]. *)
Definition _identify_most_failed_tests
    (self : TrendAnalyzer.t) (now days_back : Z) : list (string * Z) :=
  most_common 10
    (Py.Counter (map TestResult.name (recent_failures self now days_back))).

(** [result.category for result in recent_results if result.category]. *)
Definition truthy_categories (results : list TestResult.t) : list string :=
  flat_map
    (fun r =>
       match TestResult.category r with
       | Some c => if Str.truthy c then [c] else []
       | None => []
       end)
    results.

(** [TrendAnalyzer._analyze_failure_categories]. *)
Definition _analyze_failure_categories
    (self : TrendAnalyzer.t) (now days_back : Z) : list (string * Z) :=
  Py.Counter (truthy_categories (recent_failures self now days_back)).

(** The body of the loop over [test_durations.items()] in
    [_identify_performance_regressions]. *)
Definition regression_step (regressions : list string)
    (item : string * list (Z * Q)) : result (list string) :=
  let test_name := fst item in
  let duration_data := snd item in
  if (Py.len duration_data <? 5)%Z then Ok regressions
  else
    let duration_data := Py.sort_by_key fst duration_data in
    let durations := map snd duration_data in
    let mid_point := (List.length durations / 2)%nat in
    early_avg <- Py.mean (firstn mid_point durations) ;;
    recent_avg <- Py.mean (skipn mid_point durations) ;;
    if Qgt_bool recent_avg (early_avg * 1.5) && Qgt_bool recent_avg 1.0
    then Ok (regressions ++ [test_name])
    else Ok regressions.

(** [TrendAnalyzer._identify_performance_regressions]. *)
Definition _identify_performance_regressions
    (self : TrendAnalyzer.t) (now days_back : Z) : result (list string) :=
  let test_durations :=
    Py.group_by TestResult.name
      (fun r => (TestResult.timestamp r, TestResult.duration r))
      (recent_results self now days_back) in
  regressions <- for_each regression_step test_durations [] ;;
  Ok (firstn 10 regressions).

(** The [TrendMetrics] returned when there is no build to analyse. *)
Definition no_data : TrendMetrics.t :=
  TrendMetrics.mk 0 "unknown" 0 "unknown" 0 [] [] [] [].

(** [statistics.mean(xs) if xs else 0]. *)
Definition mean_or_zero (xs : list Q) : result Q :=
  match xs with
  | [] => Ok 0%Q
  | _ :: _ => Py.mean xs
  end.

(** [TrendAnalyzer.analyze_trends]. *)
Definition analyze_trends
    (self : TrendAnalyzer.t) (now days_back : Z) : result TrendMetrics.t :=
  match TrendAnalyzer.build_summaries self with
  | [] => Ok no_data
  | _ :: _ =>
    let recent_builds :=
      filter
        (fun b => (cutoff_date now days_back <=? BuildSummary.timestamp b)%Z)
        (TrendAnalyzer.build_summaries self) in
    match recent_builds with
    | [] => Ok no_data
    | _ :: _ =>
      let pass_rates := map BuildSummary.pass_rate recent_builds in
      let durations := map BuildSummary.duration recent_builds in
      average_pass_rate <- mean_or_zero pass_rates ;;
      average_duration <- mean_or_zero durations ;;
      pass_rate_trend <- _analyze_trend pass_rates false ;;
      duration_trend <- _analyze_trend durations true ;;
      flaky_tests <- _identify_flaky_tests self now days_back ;;
      let most_failed_tests :=
        _identify_most_failed_tests self now days_back in
      let failure_categories :=
        _analyze_failure_categories self now days_back in
      performance_regressions <-
        _identify_performance_regressions self now days_back ;;
      Ok (TrendMetrics.mk average_pass_rate pass_rate_trend
            average_duration duration_trend (Py.len recent_builds)
            flaky_tests most_failed_tests failure_categories
            performance_regressions)
    end
  end.

(* ================================================================== *)
(** ** Report generation and the loading sequence of [main] *)

(** The [report_data] dictionary of [generate_report]; the timestamps are
    kept as [datetime] values, their [isoformat] rendering is left to the
    serialisation. *)
Module Report.
Record summary_t : Type := mk_summary {
  total_builds : Z;
  total_test_results : Z;
  date_range_start : option Z;
  date_range_end : option Z
}.
Record t : Type := mk {
  project : string;
  framework : string;
  generated_at : Z;
  summary : summary_t;
  trends_7_days : TrendMetrics.t;
  trends_30_days : TrendMetrics.t;
  trends_90_days : TrendMetrics.t
}.
End Report.

(** [min(b.timestamp for b in self.build_summaries).isoformat()
     if self.build_summaries else None]. *)
Definition date_range_start_of (summaries : list BuildSummary.t)
    : result (option Z) :=
  match summaries with
  | [] => Ok None
  | _ :: _ =>
    earliest <- Py.min (map BuildSummary.timestamp summaries) ;;
    Ok (Some earliest)
  end.

(** [max(b.timestamp for b in self.build_summaries).isoformat()
     if self.build_summaries else None]. *)
Definition date_range_end_of (summaries : list BuildSummary.t) : option Z :=
  match summaries with
  | [] => None
  | b :: bs =>
    Some (Py.max_from (BuildSummary.timestamp b)
            (map BuildSummary.timestamp bs))
  end.

(** The construction of [report_data] in [generate_report]; the four
    clock readings are those of the three [analyze_trends] calls and of
    ["generated_at"], in this order. *)
Definition report_data (self : TrendAnalyzer.t)
    (now_7d now_30d now_90d generated_at : Z) : result Report.t :=
  trends_7d <- analyze_trends self now_7d 7 ;;
  trends_30d <- analyze_trends self now_30d 30 ;;
  trends_90d <- analyze_trends self now_90d 90 ;;
  date_start <- date_range_start_of (TrendAnalyzer.build_summaries self) ;;
  Ok (Report.mk
        (TrendAnalyzer.project_name self)
        (TrendAnalyzer.framework self)
        generated_at
        (Report.mk_summary
           (Py.len (TrendAnalyzer.build_summaries self))
           (Py.len (TrendAnalyzer.test_results self))
           date_start
           (date_range_end_of (TrendAnalyzer.build_summaries self)))
        trends_7d trends_30d trends_90d).

(** The files [generate_report] writes into the output directory, in the
    order of its two [if] statements. *)
Definition report_files (format_type : string) : list string :=
  (if String.eqb (Str.lower format_type) "json"
   then ["trend_analysis.json"] else [])
  ++ (if String.eqb (Str.lower format_type) "html"
         || String.eqb (Str.lower format_type) "all"
      then ["trend_analysis.html"] else []).

(** [TrendAnalyzer.generate_report]: the data of the report and the names
    of the files written. *)
Definition generate_report (self : TrendAnalyzer.t)
    (now_7d now_30d now_90d generated_at : Z) (format_type : string)
    : result (Report.t * list string) :=
  data <- report_data self now_7d now_30d now_90d generated_at ;;
  Ok (data, report_files format_type).

(** The two loading calls of [main] on a fresh analyzer. *)
Definition main_load (project framework : string) (now : Z)
    (results_dir : option (list (option RawResult.t)))
    (history : option (list history_item)) : TrendAnalyzer.t :=
  load_history_from_directory
    (load_results_from_directory (TrendAnalyzer.init project framework)
       now results_dir)
    now history.

(* ================================================================== *)
(** ** Reference notions used in the statements *)

(** The keys of a sequence in the order in which each is first met. *)
Definition see (seen : list string) (k : string) : list string :=
  if existsb (String.eqb k) seen then seen else seen ++ [k].

Definition first_seen (ks : list string) : list string :=
  fold_left see ks [].

(** The elements of [xs] filed under key [k], in their order in [xs]. *)
Definition filed_under {A V : Type} (key : A -> string) (val : A -> V)
    (xs : list A) (k : string) : list V :=
  map val (filter (fun x => String.eqb (key x) k) xs).

(** How many elements of [xs] satisfy [p]. *)
Definition how_many {A : Type} (p : A -> bool) (xs : list A) : Z :=
  Z.of_nat (List.length (filter p xs)).

(** The four statuses a [BuildSummary] has a count for. *)
Definition counted_status (s : string) : bool :=
  String.eqb s "passed" || String.eqb s "failed"
  || String.eqb s "skipped" || String.eqb s "broken".

(** The results of [results] that belong to build [b]. *)
Definition results_of_build (results : list TestResult.t) (b : string)
    : list TestResult.t :=
  filter (fun r => String.eqb (TestResult.build_number r) b) results.

(** How many results have status [s]. *)
Definition with_status (s : string) (results : list TestResult.t) : Z :=
  how_many (fun r => String.eqb (TestResult.status r) s) results.

(** The value a history entry gives for one field of its ["statistic"]
    object, [0] when the object or the field is absent. *)
Definition feed_statistic (e : HistoryEntry.t)
    (field : HistoryEntry.statistic_t -> option Z) : Z :=
  match HistoryEntry.statistic e with
  | Some st => match field st with Some n => n | None => 0%Z end
  | None => 0%Z
  end.

(** One result file without a ["status"] entry. *)
Definition raw_without_status : RawResult.t :=
  RawResult.mk (Some "suite.test_a") None None (Some 1000%Z) (Some 2000%Z)
    None None.

(** One history entry whose statistic counts an unlisted status. *)
Definition history_with_unknown : HistoryEntry.t :=
  HistoryEntry.mk (Some 7%Z)
    (Some (HistoryEntry.mk_time (Some 1000%Z) (Some 5000%Z)))
    (Some (HistoryEntry.mk_statistic (Some 5%Z) (Some 1%Z) None None None)).

(** [passed + failed + skipped + broken] of a summary. *)
Definition counted_sum (s : BuildSummary.t) : Z :=
  (BuildSummary.passed_tests s + BuildSummary.failed_tests s
   + BuildSummary.skipped_tests s + BuildSummary.broken_tests s)%Z.

(** One result file whose stop time precedes its start time. *)
Definition raw_clock_skew : RawResult.t :=
  RawResult.mk (Some "suite.test_a") None (Some "passed")
    (Some 2000%Z) (Some 1000%Z) None None.


(** A collection of summaries in ascending order of timestamp. *)
Definition chronological (summaries : list BuildSummary.t) : Prop :=
  Sorted Z.le (map BuildSummary.timestamp summaries).

(** One result file of a run started at [5000] ms. *)
Definition raw_recent_run : RawResult.t :=
  RawResult.mk (Some "suite.test_a") None (Some "passed")
    (Some 5000%Z) (Some 6000%Z) None None.

(** The analyzer after [main] has loaded one result directory holding
    [raw_recent_run] and then a history feed holding
    [history_with_unknown], which started at [1000] ms. *)
Definition results_then_history : TrendAnalyzer.t :=
  load_history_from_directory
    (load_results_from_directory (TrendAnalyzer.init "demo" "auto") 0
       (Some [Some raw_recent_run]))
    0 (Some [Build history_with_unknown]).


(** The slope [_analyze_trend] divides out once past its guards. *)
Definition regression_slope (values : list Q) : Q :=
  (numerator_of values (Py.sum values / inject_Z (Py.len values))
   / denominator_of (List.length values))%Q.







(** The builds [analyze_trends] keeps for a window. *)
Definition recent_builds (self : TrendAnalyzer.t) (now days_back : Z)
    : list BuildSummary.t :=
  filter (fun b => (now - days_back * 86400000000 <=? BuildSummary.timestamp b)%Z)
    (TrendAnalyzer.build_summaries self).

(** The affine transform [v -> a * v + b] of a series. *)
Definition affine (a b : Q) (values : list Q) : list Q :=
  map (fun v => (a * v + b)%Q) values.

(** How often [s] occurs among [statuses]. *)
Definition occurrences (s : string) (statuses : list string) : Z :=
  how_many (fun x => String.eqb x s) statuses.

(** The statuses recorded for test [name], in the order of the results. *)
Definition statuses_of (results : list TestResult.t) (name : string)
    : list string :=
  filed_under TestResult.name TestResult.status results name.

(** The flakiness criterion of [_identify_flaky_tests]: at least three
    runs, at least two different statuses, and every status that occurs,
    hence the least frequent one, accounts for at least one run in five. *)
Definition flaky (statuses : list string) : Prop :=
  (3 <= List.length statuses)%nat /\
  (exists s1 s2, In s1 statuses /\ In s2 statuses /\ s1 <> s2) /\
  (forall s, In s statuses ->
     (Py.len statuses <= 5 * occurrences s statuses)%Z).

(** The decision [flaky_step] takes for one test, as a boolean. *)
Definition flagged_flaky (statuses : list string) : bool :=
  (1 <? Py.distinct statuses)%Z && (3 <=? Py.len statuses)%Z &&
  match Py.min (map snd (Py.Counter statuses)) with
  | Ok minority_count =>
    Qle_bool 0.2 (inject_Z minority_count / inject_Z (Py.len statuses))
  | Raise _ => false
  end.

(** The number of runs whose status differs from the most frequent one. *)
Definition disagreeing_with_majority (statuses : list string) : Z :=
  (Py.len statuses
   - fold_left Z.max (map (fun s => occurrences s statuses) statuses) 0)%Z.

(** Results of one test, one per status, all at timestamp [0]. *)
Definition runs_of (name : string) (statuses : list string)
    : list TestResult.t :=
  map (fun s => TestResult.mk name s 1 0 "1" "main" "pytest" None None)
    statuses.

Definition analyzer_with (results : list TestResult.t) : TrendAnalyzer.t :=
  TrendAnalyzer.mk "demo" "auto" results [].

(** The results inside the window of [days_back] days before [now]. *)
Definition in_window (self : TrendAnalyzer.t) (now days_back : Z)
    : list TestResult.t :=
  filter
    (fun r => (now - days_back * 86400000000 <=? TestResult.timestamp r)%Z)
    (TrendAnalyzer.test_results self).

(** Four passes, one failure and one broken run of the same test. *)
Definition mostly_passing : list string :=
  ["passed"; "passed"; "passed"; "passed"; "failed"; "broken"].

(** The arithmetic mean of a non-empty list. *)
Definition average (xs : list Q) : Q :=
  (Py.sum xs / inject_Z (Py.len xs))%Q.

(** The (timestamp, duration) pairs recorded for test [name]. *)
Definition points_of (results : list TestResult.t) (name : string)
    : list (Z * Q) :=
  filed_under TestResult.name
    (fun r => (TestResult.timestamp r, TestResult.duration r)) results name.

(** The durations of the data points in chronological order, split at
    the midpoint. *)
Definition chronological_durations (points : list (Z * Q)) : list Q :=
  map snd (Py.sort_by_key fst points).
Definition early_half (points : list (Z * Q)) : list Q :=
  firstn (List.length points / 2) (chronological_durations points).
Definition recent_half (points : list (Z * Q)) : list Q :=
  skipn (List.length points / 2) (chronological_durations points).

(** The regression criterion of [_identify_performance_regressions]. *)
Definition regressed (points : list (Z * Q)) : Prop :=
  (5 <= List.length points)%nat /\
  (average (early_half points) * 1.5 < average (recent_half points))%Q /\
  (1.0 < average (recent_half points))%Q.

(** The decision [regression_step] takes for one test, as a boolean. *)
Definition flagged_regression (points : list (Z * Q)) : bool :=
  (5 <=? Py.len points)%Z &&
  Qgt_bool (average (recent_half points)) (average (early_half points) * 1.5)
  && Qgt_bool (average (recent_half points)) 1.0.


(** The seven categories of the classifier. *)
Definition taxonomy : list string :=
  ["passed"; "product_defect"; "test_defect"; "infrastructure";
   "performance"; "unknown_failure"; "other_failure"].

(** A label object that has both of its keys. *)
Definition label_of (pair : string * string) : Label.t :=
  Label.mk (Some (fst pair)) (Some (snd pair)).



(** The direction of a series: [unknown] below three values, otherwise
    the direction of its regression slope, negated first for [reverse]. *)
Definition trend_of_series (values : list Q) (reverse : bool) : string :=
  if (List.length values <? 3)%nat then "unknown"
  else direction (if reverse then (- regression_slope values)%Q
                  else regression_slope values).

(** The names of the results inside the window, in the order in which
    they are first met. *)
Definition names_in_window (self : TrendAnalyzer.t) (now days_back : Z)
    : list string :=
  first_seen (map TestResult.name (in_window self now days_back)).

(** The results inside the window whose status is [failed]. *)
Definition failures_in_window (self : TrendAnalyzer.t) (now days_back : Z)
    : list TestResult.t :=
  filter (fun r => String.eqb (TestResult.status r) "failed")
    (in_window self now days_back).

(** The failure counts per test name, in the order in which the names
    are first met among the failures inside the window. *)
Definition failure_counts (self : TrendAnalyzer.t) (now days_back : Z)
    : list (string * Z) :=
  let names := map TestResult.name (failures_in_window self now days_back) in
  map (fun name => (name, occurrences name names)) (first_seen names).

(** Result [r] has category [c]. *)
Definition has_category (c : string) (r : TestResult.t) : bool :=
  match TestResult.category r with
  | Some c' => String.eqb c' c
  | None => false
  end.

(** Result [r] carries the category the classifier gives it, as every
    result built by [_parse_test_result] does. *)
Definition categorised (r : TestResult.t) : Prop :=
  TestResult.category r
  = Some (_categorize_test (TestResult.name r) (TestResult.status r)
            (TestResult.error_message r)).

(** Result [r] has a category that is neither absent nor empty. *)
Definition has_truthy_category (r : TestResult.t) : bool :=
  match TestResult.category r with
  | Some c => Str.truthy c
  | None => false
  end.


(** One failing result file with an assertion message, of build 7. *)
Definition raw_failed_assertion : RawResult.t :=
  RawResult.mk (Some "suite.test_b") None (Some "FAILED")
    (Some 1000%Z) (Some 1500%Z)
    (Some [label_of ("build", "7")]) (Some (Some "AssertionError: boom")).


(** The direction read the other way round. *)
Definition opposite (trend : string) : string :=
  if String.eqb trend "improving" then "declining"
  else if String.eqb trend "declining" then "improving"
  else trend.

(* ================================================================== *)
(** * Properties *)

(** ** Strings and the failure classifier *)

Section StringFacts.

Lemma starts_with_iff (p s : string) :
  Str.starts_with p s = true <-> exists suf, s = (p ++ suf)%string.
Proof.
  revert s; induction p as [|a p IH]; intros s; simpl.
  - split; [intros _; now exists s | reflexivity].
  - destruct s as [|b s].
    + split; [discriminate | intros [suf H]; discriminate].
    + rewrite andb_true_iff, Ascii.eqb_eq, IH. split.
      * intros [-> [suf ->]]. now exists suf.
      * intros [suf H]. injection H as -> ->.
        split; [reflexivity | now exists suf].
Qed.

Lemma contains_iff (kw s : string) :
  Str.contains kw s = true <-> exists pre suf, s = (pre ++ kw ++ suf)%string.
Proof.
  induction s as [|c s IH]; simpl.
  - rewrite orb_false_r, starts_with_iff. split.
    + intros [suf H]. now exists "", suf.
    + intros [pre [suf H]]. destruct pre; [now exists suf | discriminate].
  - rewrite orb_true_iff, starts_with_iff, IH. split.
    + intros [[suf H] | [pre [suf H]]].
      * now exists "", suf.
      * exists (String c pre), suf. simpl. now rewrite H.
    + intros [pre [suf H]]. destruct pre as [|c' pre]; simpl in H.
      * left. now exists suf.
      * right. injection H as _ H. now exists pre, suf.
Qed.

Lemma any_keyword_in_iff (keywords : list string) (text : string) :
  any_keyword_in keywords (Str.lower text) = true <->
  mentions_any text keywords.
Proof.
  unfold any_keyword_in, mentions_any, mentions. rewrite existsb_exists.
  split; intros [kw [Hin H]]; exists kw; (split; [exact Hin|]);
    now apply contains_iff.
Qed.

Lemma any_keyword_in_false (keywords : list string) (text : string) :
  any_keyword_in keywords (Str.lower text) = false <->
  ~ mentions_any text keywords.
Proof.
  rewrite <- any_keyword_in_iff. now destruct (any_keyword_in _ _).
Qed.

Lemma truthy_iff (s : string) : Str.truthy s = true <-> s <> "".
Proof. destruct s; simpl; split; congruence. Qed.

End StringFacts.

Section Classifier.

Variable name : string.



(** The code's answer is always derivable from the rules. *)
Lemma categorize_test_in_spec status e :
  classify_spec status e (_categorize_test name status e).
Proof.
  unfold _categorize_test, product_keywords, test_keywords,
    infrastructure_keywords, performance_keywords.
  destruct (status =? "passed") eqn:S.
  - apply String.eqb_eq in S. subst. constructor.
  - apply String.eqb_neq in S.
    destruct e as [msg|].
    2:{ apply rule_unknown; [exact S|]. intros t [E _]. discriminate. }
    destruct (Str.truthy msg) eqn:T; cbn [negb].
    2:{ apply rule_unknown; [exact S|]. intros t [E Ht].
        injection E as <-. apply truthy_iff in Ht. congruence. }
    assert (Et : error_text (Some msg) msg)
      by (split; [reflexivity | now apply truthy_iff]).
    cbv zeta.
    destruct (any_keyword_in _ (Str.lower msg)) eqn:K1;
      [apply any_keyword_in_iff in K1; eapply rule_product; eassumption|].
    apply any_keyword_in_false in K1.
    destruct (any_keyword_in _ (Str.lower msg)) eqn:K2;
      [apply any_keyword_in_iff in K2; eapply rule_test; eassumption|].
    apply any_keyword_in_false in K2.
    destruct (any_keyword_in _ (Str.lower msg)) eqn:K3;
      [apply any_keyword_in_iff in K3; eapply rule_infrastructure; eassumption|].
    apply any_keyword_in_false in K3.
    destruct (any_keyword_in _ (Str.lower msg)) eqn:K4;
      [apply any_keyword_in_iff in K4; eapply rule_performance; eassumption|].
    apply any_keyword_in_false in K4.
    eapply rule_other; eassumption.
Qed.


End Classifier.

(* ================================================================== *)
(** ** Loops, dictionaries and sorting *)

Section Loops.

Context {A B : Type}.

Lemma fold_left_appending (step : list B -> A -> list B) (g : A -> list B) :
  (forall acc x, step acc x = acc ++ g x) ->
  forall xs acc, fold_left step xs acc = acc ++ flat_map g xs.
Proof.
  intros Hstep xs; induction xs as [|x xs IH]; intros acc; simpl.
  - now rewrite app_nil_r.
  - now rewrite IH, Hstep, <- app_assoc.
Qed.

Lemma for_each_appending (body : list B -> A -> result (list B))
    (g : A -> list B) (xs : list A) :
  (forall acc x, In x xs -> body acc x = Ok (acc ++ g x)) ->
  forall acc, for_each body xs acc = Ok (acc ++ flat_map g xs).
Proof.
  induction xs as [|x xs IH]; intros Hbody acc; simpl.
  - now rewrite app_nil_r.
  - rewrite Hbody by now left. simpl.
    rewrite IH by (intros; apply Hbody; now right).
    now rewrite <- app_assoc.
Qed.

End Loops.

Lemma flat_map_guard {A B : Type} (p : A -> bool) (f : A -> B) (xs : list A) :
  flat_map (fun x => if p x then [f x] else []) xs = map f (filter p xs).
Proof.
  induction xs as [|x xs IH]; simpl; [reflexivity|].
  destruct (p x); simpl; now rewrite IH.
Qed.

Section FirstSeen.

Lemma existsb_eqb_In (k : string) (ks : list string) :
  existsb (String.eqb k) ks = true <-> In k ks.
Proof.
  rewrite existsb_exists. split.
  - intros [x [Hin E]]. apply String.eqb_eq in E. now subst.
  - intros Hin. exists k. split; [exact Hin | apply String.eqb_refl].
Qed.

Lemma first_seen_snoc (ks : list string) (k : string) :
  first_seen (ks ++ [k]) = see (first_seen ks) k.
Proof. unfold first_seen. now rewrite fold_left_app. Qed.

Lemma first_seen_In (ks : list string) (k : string) :
  In k (first_seen ks) <-> In k ks.
Proof.
  induction ks as [|k' ks IH] using rev_ind; [reflexivity|].
  rewrite first_seen_snoc, in_app_iff. unfold see.
  destruct (existsb _ _) eqn:E.
  - apply existsb_eqb_In in E. rewrite IH in *. simpl.
    intuition (subst; auto).
  - rewrite in_app_iff, IH. reflexivity.
Qed.

Lemma first_seen_NoDup (ks : list string) : NoDup (first_seen ks).
Proof.
  induction ks as [|k ks IH] using rev_ind; [constructor|].
  rewrite first_seen_snoc. unfold see.
  destruct (existsb _ _) eqn:E; [exact IH|].
  apply NoDup_app; [exact IH | repeat constructor; auto |].
  intros x Hx [<-|[]]. apply existsb_eqb_In in Hx. congruence.
Qed.

Lemma see_from (acc ks : list string) :
  fold_left see ks acc =
  acc ++ filter (fun k => negb (existsb (String.eqb k) acc)) (first_seen ks).
Proof.
  induction ks as [|x ks IH] using rev_ind.
  - simpl. now rewrite app_nil_r.
  - rewrite fold_left_app, IH, first_seen_snoc. cbn [fold_left].
    unfold see.
    destruct (existsb (String.eqb x) (first_seen ks)) eqn:Es.
    + assert (Hin : In x (acc ++ filter
                 (fun k => negb (existsb (String.eqb k) acc)) (first_seen ks))).
      { apply in_app_iff. destruct (existsb (String.eqb x) acc) eqn:Ea.
        - left. now apply existsb_eqb_In.
        - right. apply filter_In. split; [now apply existsb_eqb_In|].
          now rewrite Ea. }
      apply existsb_eqb_In in Hin. now rewrite Hin.
    + rewrite filter_app. cbn [filter].
      destruct (existsb (String.eqb x) acc) eqn:Ea; cbn [negb].
      * assert (Hin : In x (acc ++ filter
                   (fun k => negb (existsb (String.eqb k) acc)) (first_seen ks)))
          by (apply in_app_iff; left; now apply existsb_eqb_In).
        apply existsb_eqb_In in Hin. now rewrite Hin, app_nil_r.
      * assert (Hout : existsb (String.eqb x) (acc ++ filter
                   (fun k => negb (existsb (String.eqb k) acc)) (first_seen ks))
                 = false).
        { apply not_true_iff_false. intros Hin. apply existsb_eqb_In in Hin.
          apply in_app_iff in Hin. destruct Hin as [Hin|Hin].
          - apply existsb_eqb_In in Hin. congruence.
          - apply filter_In in Hin. destruct Hin as [Hin _].
            apply existsb_eqb_In in Hin. congruence. }
        rewrite Hout. now rewrite app_assoc.
Qed.

(** The first key comes first, and is met no more among the others. *)
Lemma first_seen_cons (k : string) (ks : list string) :
  first_seen (k :: ks) =
  k :: filter (fun k' => negb (String.eqb k' k)) (first_seen ks).
Proof.
  unfold first_seen at 1. cbn [fold_left]. unfold see at 2. cbn [existsb].
  rewrite see_from. cbn [app]. f_equal. apply filter_ext.
  intros k'. cbn [existsb]. now rewrite orb_false_r.
Qed.

End FirstSeen.

Section GroupBy.

Context {A V : Type} (key : A -> string) (val : A -> V).

Lemma filed_under_snoc (xs : list A) (x : A) (k : string) :
  filed_under key val (xs ++ [x]) k =
  filed_under key val xs k ++ (if String.eqb (key x) k then [val x] else []).
Proof.
  unfold filed_under. rewrite filter_app, map_app. simpl.
  now destruct (String.eqb (key x) k).
Qed.

Lemma filed_under_absent (xs : list A) (k : string) :
  ~ In k (map key xs) -> filed_under key val xs k = [].
Proof.
  unfold filed_under. induction xs as [|x xs IH]; simpl; [reflexivity|].
  intros H. destruct (String.eqb (key x) k) eqn:E.
  - apply String.eqb_eq in E. tauto.
  - apply IH. tauto.
Qed.

Lemma dict_append_present (G : string -> list V) (k : string) (v : V)
    (ks : list string) :
  NoDup ks -> In k ks ->
  Py.dict_append k v (map (fun k' => (k', G k')) ks) =
  map (fun k' => (k', G k' ++ (if String.eqb k k' then [v] else []))) ks.
Proof.
  induction ks as [|k0 ks IH]; intros ND Hin; [destruct Hin|].
  inversion ND as [|? ? Hnotin ND']; subst. simpl.
  destruct (String.eqb k0 k) eqn:E.
  - apply String.eqb_eq in E. subst k0. rewrite String.eqb_refl. f_equal.
    apply map_ext_in. intros k' Hk'.
    destruct (String.eqb k k') eqn:E'.
    + apply String.eqb_eq in E'. subst. contradiction.
    + now rewrite app_nil_r.
  - rewrite String.eqb_sym, E, app_nil_r. f_equal.
    apply IH; [exact ND'|]. destruct Hin as [->|Hin]; [|exact Hin].
    rewrite String.eqb_refl in E. discriminate.
Qed.

Lemma dict_append_absent (G : string -> list V) (k : string) (v : V)
    (ks : list string) :
  ~ In k ks ->
  Py.dict_append k v (map (fun k' => (k', G k')) ks) =
  map (fun k' => (k', G k')) ks ++ [(k, [v])].
Proof.
  induction ks as [|k0 ks IH]; intros Hnotin; simpl; [reflexivity|].
  destruct (String.eqb k0 k) eqn:E.
  - apply String.eqb_eq in E. subst. simpl in Hnotin. tauto.
  - rewrite IH; [reflexivity|]. simpl in Hnotin. tauto.
Qed.

(** The dictionary built by the grouping loop: one entry per key, in the
    order the keys are first met, holding the values filed under it. *)
Lemma group_by_spec (xs : list A) :
  Py.group_by key val xs =
  map (fun k => (k, filed_under key val xs k)) (first_seen (map key xs)).
Proof.
  induction xs as [|x xs IH] using rev_ind; [reflexivity|].
  unfold Py.group_by in *. rewrite fold_left_app, IH. cbn [fold_left].
  replace (map key (xs ++ [x])) with (map key xs ++ [key x])
    by (now rewrite map_app).
  rewrite first_seen_snoc. unfold see.
  destruct (existsb _ _) eqn:E.
  - apply existsb_eqb_In in E.
    rewrite dict_append_present by (auto using first_seen_NoDup).
    apply map_ext. intros k. now rewrite filed_under_snoc.
  - assert (Hnot : ~ In (key x) (first_seen (map key xs))).
    { intros H. apply existsb_eqb_In in H. congruence. }
    rewrite dict_append_absent by exact Hnot.
    rewrite map_app. simpl. f_equal.
    + apply map_ext_in. intros k Hk. rewrite filed_under_snoc.
      destruct (String.eqb (key x) k) eqn:E'.
      * apply String.eqb_eq in E'. subst. contradiction.
      * now rewrite app_nil_r.
    + rewrite filed_under_snoc, String.eqb_refl.
      rewrite filed_under_absent; [reflexivity|].
      now rewrite <- first_seen_In.
Qed.

End GroupBy.

Section StableSort.

Context {A : Type} (key : A -> Z).

Let by_key (x y : A) : Prop := (key x <= key y)%Z.

Lemma insert_by_key_perm (x : A) (l : list A) :
  Permutation (x :: l) (Py.insert_by (fun a b => (key a <=? key b)%Z) x l).
Proof.
  induction l as [|y l IH]; simpl; [reflexivity|].
  destruct (key x <=? key y)%Z; [reflexivity|].
  rewrite perm_swap. now apply perm_skip.
Qed.

Lemma sort_by_key_perm (l : list A) : Permutation l (Py.sort_by_key key l).
Proof.
  unfold Py.sort_by_key. induction l as [|x l IH]; simpl; [constructor|].
  rewrite <- insert_by_key_perm. now apply perm_skip.
Qed.

Lemma insert_by_key_sorted (x : A) (l : list A) :
  Sorted by_key l ->
  Sorted by_key (Py.insert_by (fun a b => (key a <=? key b)%Z) x l).
Proof.
  induction l as [|y l IH]; intros S; simpl.
  - repeat constructor.
  - destruct (key x <=? key y)%Z eqn:E.
    + constructor; [exact S|]. constructor. apply Z.leb_le. exact E.
    + inversion S as [|? ? S' Hd]; subst.
      constructor; [now apply IH|].
      assert (Hyx : by_key y x) by (apply Z.leb_gt in E; unfold by_key; lia).
      destruct l as [|z l]; simpl.
      * now constructor.
      * destruct (key x <=? key z)%Z; constructor; [exact Hyx|].
        now inversion Hd.
Qed.

Lemma sort_by_key_sorted (l : list A) :
  Sorted by_key (Py.sort_by_key key l).
Proof.
  unfold Py.sort_by_key. induction l as [|x l IH]; simpl; [constructor|].
  now apply insert_by_key_sorted.
Qed.

Lemma sort_by_key_length (l : list A) :
  List.length (Py.sort_by_key key l) = List.length l.
Proof. symmetry. apply Permutation_length, sort_by_key_perm. Qed.

(** The keys of the sorted list are in ascending order. *)
Lemma sort_by_key_ascending (l : list A) :
  Sorted Z.le (map key (Py.sort_by_key key l)).
Proof.
  pose proof (sort_by_key_sorted l) as S.
  induction S as [|x l' S IH Hd]; simpl; constructor; [exact IH|].
  destruct Hd; simpl; constructor. assumption.
Qed.

Lemma insert_by_key_stable (x : A) (s : list A) (k : Z) :
  filter (fun a => (key a =? k)%Z)
    (Py.insert_by (fun a b => (key a <=? key b)%Z) x s) =
  filter (fun a => (key a =? k)%Z) (x :: s).
Proof.
  induction s as [|y s IHs]; [reflexivity|].
  cbn [Py.insert_by]. destruct (key x <=? key y)%Z eqn:E; [reflexivity|].
  cbn [filter] in *. rewrite IHs.
  destruct (key y =? k)%Z eqn:Ey; [|reflexivity].
  destruct (key x =? k)%Z eqn:Ex; [lia | reflexivity].
Qed.

(** Elements with the same key keep their relative order. *)
Lemma sort_by_key_stable (l : list A) (k : Z) :
  filter (fun a => (key a =? k)%Z) (Py.sort_by_key key l) =
  filter (fun a => (key a =? k)%Z) l.
Proof.
  unfold Py.sort_by_key. induction l as [|x l IH]; [reflexivity|].
  cbn [Py.stable_sort]. rewrite insert_by_key_stable.
  cbn [filter]. now rewrite IH.
Qed.

End StableSort.

(* ================================================================== *)
(** ** Build aggregator and history importer *)

Section Counts.

Lemma sum_int_ones_from {A : Type} (xs : list A) (a : Z) :
  fold_left Z.add (map (fun _ => 1%Z) xs) a = (a + Z.of_nat (List.length xs))%Z.
Proof.
  revert a; induction xs as [|x xs IH]; intros a; simpl fold_left.
  - simpl. lia.
  - rewrite IH. simpl List.length. lia.
Qed.

Lemma count_status_with_status (s : string) (results : list TestResult.t) :
  count_status s results = with_status s results.
Proof.
  unfold count_status, with_status, how_many, Py.sum_int.
  now rewrite sum_int_ones_from.
Qed.

(** Each result is counted once: under its status when that is one of the
    four, and as an uncounted result otherwise. *)
Lemma len_by_status (results : list TestResult.t) :
  Py.len results =
  (with_status "passed" results + with_status "failed" results
   + with_status "skipped" results + with_status "broken" results
   + how_many (fun r => negb (counted_status (TestResult.status r))) results)%Z.
Proof.
  unfold Py.len, with_status, how_many, counted_status.
  induction results as [|r rs IH]; [reflexivity|].
  cbn [filter List.length].
  destruct (String.eqb (TestResult.status r) "passed") eqn:E1;
  destruct (String.eqb (TestResult.status r) "failed") eqn:E2;
  destruct (String.eqb (TestResult.status r) "skipped") eqn:E3;
  destruct (String.eqb (TestResult.status r) "broken") eqn:E4;
  try (apply String.eqb_eq in E1); try (apply String.eqb_eq in E2);
  try (apply String.eqb_eq in E3); try (apply String.eqb_eq in E4);
  try congruence; cbn [negb orb List.length]; lia.
Qed.

Lemma how_many_nonneg {A : Type} (p : A -> bool) (xs : list A) :
  (0 <= how_many p xs)%Z.
Proof. unfold how_many. lia. Qed.

Lemma how_many_zero_iff {A : Type} (p : A -> bool) (xs : list A) :
  how_many (fun x => negb (p x)) xs = 0%Z <-> Forall (fun x => p x = true) xs.
Proof.
  unfold how_many. induction xs as [|x xs IH]; simpl.
  - split; [constructor | reflexivity].
  - destruct (p x) eqn:E; simpl.
    + rewrite IH. split; [now constructor | now inversion 1].
    + split; [lia | inversion 1; congruence].
Qed.

Lemma aggregate_flat_map (results : list TestResult.t) :
  aggregate results =
  flat_map
    (fun item =>
       match summarize (fst item) (snd item) with
       | Some summary => [summary]
       | None => []
       end)
    (Py.group_by TestResult.build_number (fun r => r) results).
Proof.
  unfold aggregate.
  rewrite fold_left_appending with
    (g := fun item => match summarize (fst item) (snd item) with
                      | Some summary => [summary]
                      | None => []
                      end); [reflexivity|].
  intros acc item. destruct (summarize _ _); [reflexivity|].
  now rewrite app_nil_r.
Qed.

(** A summary of the aggregation is the summary of the results of its own
    build. *)
Lemma aggregate_In (results : list TestResult.t) (s : BuildSummary.t) :
  In s (aggregate results) <->
  In (BuildSummary.build_number s) (map TestResult.build_number results) /\
  summarize (BuildSummary.build_number s)
    (results_of_build results (BuildSummary.build_number s)) = Some s.
Proof.
  rewrite aggregate_flat_map, group_by_spec, in_flat_map.
  assert (Hf : forall k,
    filed_under TestResult.build_number (fun r => r) results k =
    results_of_build results k).
  { intros k. unfold filed_under, results_of_build. apply map_id. }
  assert (Hb : forall k rs s', summarize k rs = Some s' ->
                               BuildSummary.build_number s' = k).
  { intros k [|r rs] s' H; simpl in H; [discriminate|].
    injection H as <-. reflexivity. }
  split.
  - intros [item [Hin Hs]]. apply in_map_iff in Hin.
    destruct Hin as [k [<- Hk]]. simpl in Hs. rewrite Hf in Hs.
    destruct (summarize k _) eqn:E; [|destruct Hs].
    destruct Hs as [->|[]]. apply Hb in E as E'. rewrite E'.
    split; [|exact E]. now apply first_seen_In.
  - intros [Hk Hs]. eexists. split.
    + apply in_map_iff. eexists. split; [reflexivity|].
      apply first_seen_In. exact Hk.
    + simpl. rewrite Hf, Hs. now left.
Qed.

End Counts.

Lemma summarize_fields (k : string) (rs : list TestResult.t)
    (s : BuildSummary.t) :
  summarize k rs = Some s ->
  BuildSummary.total_tests s = Py.len rs /\
  BuildSummary.passed_tests s = with_status "passed" rs /\
  BuildSummary.failed_tests s = with_status "failed" rs /\
  BuildSummary.skipped_tests s = with_status "skipped" rs /\
  BuildSummary.broken_tests s = with_status "broken" rs.
Proof.
  destruct rs as [|r rs]; simpl; [discriminate|].
  intros H. injection H as <-. cbn [BuildSummary.total_tests
    BuildSummary.passed_tests BuildSummary.failed_tests
    BuildSummary.skipped_tests BuildSummary.broken_tests].
  now rewrite !count_status_with_status.
Qed.

(** C1, as specified, fails.  A result file without a status is parsed to
    status [unknown]: its build has [total_tests = 1] while the four
    counted statuses add up to [0].  A history entry with
    [total = 5, passed = 1] is imported as it is. *)
Lemma total_exceeds_counted_statuses :
  let aggregated :=
    TrendAnalyzer.build_summaries
      (load_results_from_directory (TrendAnalyzer.init "demo" "auto") 0
         (Some [Some raw_without_status])) in
  let imported :=
    TrendAnalyzer.build_summaries
      (load_history_from_directory (TrendAnalyzer.init "demo" "auto") 0
         (Some [Build history_with_unknown])) in
  map BuildSummary.total_tests aggregated = [1%Z] /\
  map counted_sum aggregated = [0%Z] /\
  map BuildSummary.total_tests imported = [5%Z] /\
  map counted_sum imported = [1%Z].
Proof. vm_compute. repeat split. Qed.

(** C1, as the code has it.  A summary of the Build Aggregator counts the
    results of its build: [total_tests] is their number, each of the four
    other counts is the number of results with that status, so
    [total_tests] is their sum plus the number of results with any other
    status; all five are non-negative, and [total_tests] equals the sum
    exactly when every result of the build has one of the four statuses.
    A summary of the History Importer carries the five numbers of its
    entry's statistic, [0] for an absent one. *)
Theorem summary_counts :
  (forall results s,
     In s (aggregate results) ->
     let rs := results_of_build results (BuildSummary.build_number s) in
     BuildSummary.total_tests s = Py.len rs /\
     BuildSummary.passed_tests s = with_status "passed" rs /\
     BuildSummary.failed_tests s = with_status "failed" rs /\
     BuildSummary.skipped_tests s = with_status "skipped" rs /\
     BuildSummary.broken_tests s = with_status "broken" rs /\
     BuildSummary.total_tests s =
       (counted_sum s
        + how_many (fun r => negb (counted_status (TestResult.status r))) rs)%Z /\
     (0 <= BuildSummary.total_tests s)%Z /\
     (0 <= BuildSummary.passed_tests s)%Z /\
     (0 <= BuildSummary.failed_tests s)%Z /\
     (0 <= BuildSummary.skipped_tests s)%Z /\
     (0 <= BuildSummary.broken_tests s)%Z /\
     (BuildSummary.total_tests s = counted_sum s <->
      Forall (fun r => counted_status (TestResult.status r) = true) rs))
  /\
  (forall self_framework now e s,
     history_summary self_framework now (Build e) = Ok s ->
     BuildSummary.total_tests s = feed_statistic e HistoryEntry.total /\
     BuildSummary.passed_tests s = feed_statistic e HistoryEntry.passed /\
     BuildSummary.failed_tests s = feed_statistic e HistoryEntry.failed /\
     BuildSummary.skipped_tests s = feed_statistic e HistoryEntry.skipped /\
     BuildSummary.broken_tests s = feed_statistic e HistoryEntry.broken).
Proof.
  split.
  - intros results s Hin rs. apply aggregate_In in Hin.
    destruct Hin as [_ Hs]. fold rs in Hs.
    apply summarize_fields in Hs.
    destruct Hs as (Ht & Hp & Hf & Hk & Hb).
    pose proof (len_by_status rs) as L.
    pose proof (how_many_zero_iff
      (fun r => counted_status (TestResult.status r)) rs) as Z0.
    unfold counted_sum. rewrite Ht, Hp, Hf, Hk, Hb.
    unfold with_status in *.
    repeat split; try reflexivity; try apply how_many_nonneg;
      try (unfold Py.len; lia); try exact L.
    + intros E. apply Z0. lia.
    + intros F. apply Z0 in F. lia.
  - intros fw now e s H. simpl in H. injection H as <-.
    unfold feed_statistic, get_or. cbn.
    destruct (HistoryEntry.statistic e); repeat split; reflexivity.
Qed.

Lemma summary_counts_witness :
  let results := runs_of "suite.test_a" ["passed"; "unknown"] in
  let s := BuildSummary.mk "1" 0 "main" "pytest" 2 1 0 0 0 (0 + 1 + 1)
             (pass_rate_of 1 2) in
  In s (aggregate results) /\
  BuildSummary.total_tests s = (counted_sum s + 1)%Z.
Proof.
  intros results s.
  assert (H : In s (aggregate results)) by (left; reflexivity).
  split; [exact H|].
  destruct (proj1 summary_counts results s H) as (_ & _ & _ & _ & _ & E & _).
  rewrite E. reflexivity.
Defined.

(* ================================================================== *)
(** ** Result parser *)






(* ================================================================== *)
(** ** Order of the summary collection *)

(** The aggregation path leaves the collection sorted. *)
Lemma load_build_summaries_chronological (self : TrendAnalyzer.t) :
  chronological (TrendAnalyzer.build_summaries (_load_build_summaries self)).
Proof. unfold chronological. simpl. apply sort_by_key_ascending. Qed.

(** C8.  After [main]'s two loading steps, results first and history
    second, the collection holds the aggregated build of 5000 ms before
    the imported build of 1000 ms: it is not sorted when [analyze_trends]
    runs, and the imported build is inside the window. *)
Theorem history_import_leaves_collection_unsorted :
  map BuildSummary.timestamp
    (TrendAnalyzer.build_summaries results_then_history)
  = [5000000%Z; 1000000%Z]
  /\ ~ chronological (TrendAnalyzer.build_summaries results_then_history)
  /\ exists metrics,
       analyze_trends results_then_history 6000000 30 = Ok metrics /\
       TrendMetrics.total_builds metrics = 2%Z.
Proof.
  split; [reflexivity|]. split.
  - unfold chronological.
    change (map BuildSummary.timestamp
              (TrendAnalyzer.build_summaries results_then_history))
      with [5000000%Z; 1000000%Z].
    intros S. inversion S as [|? ? _ Hd]; subst.
    inversion Hd as [|? ? Hle]; subst. lia.
  - eexists. split; [vm_compute; reflexivity | reflexivity].
Qed.

(* ================================================================== *)
(** ** Trend engine: absence of data *)

Lemma filter_none {A : Type} (p : A -> bool) (xs : list A) :
  (forall x, In x xs -> p x = false) -> filter p xs = [].
Proof.
  induction xs as [|x xs IH]; intros H; simpl; [reflexivity|].
  rewrite (H x) by now left. apply IH. intros y Hy. apply H. now right.
Qed.



(* ================================================================== *)
(** ** Sums of floats *)

Section Sums.

Local Open Scope Q_scope.

Lemma sum_from (xs : list Q) (a : Q) :
  fold_left Qplus xs a == a + Py.sum xs.
Proof.
  unfold Py.sum. revert a. induction xs as [|x xs IH]; intros a; simpl.
  - ring.
  - rewrite IH, (IH (0 + x)). ring.
Qed.

Lemma sum_cons (x : Q) (xs : list Q) : Py.sum (x :: xs) == x + Py.sum xs.
Proof. unfold Py.sum at 1. simpl. rewrite sum_from. ring. Qed.

Lemma sum_app (xs ys : list Q) : Py.sum (xs ++ ys) == Py.sum xs + Py.sum ys.
Proof.
  induction xs as [|x xs IH]; simpl.
  - unfold Py.sum at 2. simpl. ring.
  - rewrite !sum_cons, IH. ring.
Qed.

Context {A : Type}.

Lemma sum_map_ext (f g : A -> Q) (l : list A) :
  (forall x, In x l -> f x == g x) ->
  Py.sum (map f l) == Py.sum (map g l).
Proof.
  induction l as [|x l IH]; intros H; simpl; [reflexivity|].
  rewrite !sum_cons, IH, (H x); [reflexivity | now left |].
  intros y Hy. apply H. now right.
Qed.

Lemma sum_map_plus (f g : A -> Q) (l : list A) :
  Py.sum (map (fun x => f x + g x) l) == Py.sum (map f l) + Py.sum (map g l).
Proof.
  induction l as [|x l IH]; simpl; [reflexivity|].
  rewrite !sum_cons, IH. ring.
Qed.

Lemma sum_map_scale (c : Q) (f : A -> Q) (l : list A) :
  Py.sum (map (fun x => c * f x) l) == c * Py.sum (map f l).
Proof.
  induction l as [|x l IH]; simpl.
  - unfold Py.sum. simpl. ring.
  - rewrite !sum_cons, IH. ring.
Qed.

Lemma sum_map_const (c : Q) (l : list A) :
  Py.sum (map (fun _ => c) l) == c * inject_Z (Py.len l).
Proof.
  unfold Py.len. induction l as [|x l IH]; simpl map.
  - unfold Py.sum. simpl. ring.
  - rewrite sum_cons, IH. simpl List.length.
    rewrite Nat2Z.inj_succ, <- Z.add_1_r, inject_Z_plus. ring.
Qed.

Lemma sum_map_nonneg (f : A -> Q) (l : list A) :
  (forall x, In x l -> 0 <= f x) -> 0 <= Py.sum (map f l).
Proof.
  induction l as [|x l IH]; intros H; simpl.
  - unfold Py.sum. simpl. apply Qle_refl.
  - rewrite sum_cons.
    assert (0 <= f x) by (apply H; now left).
    assert (0 <= Py.sum (map f l)) by (apply IH; intros; apply H; now right).
    lra.
Qed.

End Sums.

(* ================================================================== *)
(** ** Trend direction: the regression *)

Section Regression.

Local Open Scope Q_scope.

Lemma Qidx_succ (n : nat) : Qidx (S n) == Qidx n + 1.
Proof.
  unfold Qidx. rewrite Nat2Z.inj_succ, <- Z.add_1_r, inject_Z_plus.
  reflexivity.
Qed.

Lemma Qidx_nonneg (n : nat) : 0 <= Qidx n.
Proof.
  unfold Qidx. change 0 with (inject_Z 0). rewrite <- Zle_Qle. lia.
Qed.

Lemma x_mean_Qidx (n : nat) : x_mean n == (Qidx n - 1) * (1 # 2).
Proof.
  unfold x_mean, Qidx, Z.sub. rewrite inject_Z_plus, inject_Z_opp.
  field.
Qed.

(** [0 + 1 + ... + (n - 1) = n * x_mean]. *)
Lemma sum_indices (n : nat) :
  Py.sum (map Qidx (Py.range n)) == Qidx n * x_mean n.
Proof.
  unfold Py.range. induction n as [|n IH].
  - unfold Py.sum. simpl. unfold Qidx. simpl. ring.
  - rewrite seq_S, map_app, sum_app, IH. simpl map.
    rewrite sum_cons. unfold Py.sum at 1. simpl fold_left.
    rewrite !x_mean_Qidx, Qidx_succ. field.
Qed.

(** The index deviations cancel. *)
Lemma sum_centered_indices (n : nat) :
  Py.sum (map (fun i => Qidx i - x_mean n) (Py.range n)) == 0.
Proof.
  rewrite (sum_map_ext _ (fun i => Qidx i + (- x_mean n))) by (intros; ring).
  rewrite (sum_map_plus Qidx (fun _ => - x_mean n)), sum_indices.
  rewrite sum_map_const. unfold Py.len, Py.range. rewrite length_seq.
  fold (Qidx n). ring.
Qed.

Lemma square_nonneg (q : Q) : 0 <= q ^ 2.
Proof. simpl. nra. Qed.

Lemma square_positive (q : Q) : q < 0 -> 0 < q ^ 2.
Proof. intros H. simpl. nra. Qed.

Lemma denominator_positive (n : nat) : (2 <= n)%nat -> 0 < denominator_of n.
Proof.
  intros Hn. unfold denominator_of, Py.range.
  destruct n as [|n]; [lia|]. cbn [seq map]. rewrite sum_cons.
  assert (Hrest : 0 <= Py.sum (map (fun i => (Qidx i - x_mean (S n)) ^ 2)
                                  (seq 1 n))).
  { apply sum_map_nonneg. intros i _. apply square_nonneg. }
  assert (Hx : 0 < x_mean (S n)).
  { rewrite x_mean_Qidx, Qidx_succ.
    destruct n as [|n]; [lia|]. rewrite Qidx_succ.
    pose proof (Qidx_nonneg n). lra. }
  assert (Hfirst : 0 < (Qidx 0 - x_mean (S n)) ^ 2).
  { apply square_positive. change (Qidx 0) with 0. lra. }
  lra.
Qed.

Lemma denominator_guard (values : list Q) :
  (3 <= List.length values)%nat ->
  Qeq_bool (denominator_of (List.length values)) 0 = false.
Proof.
  intros H. apply not_true_is_false. intros E. apply Qeq_bool_iff in E.
  pose proof (denominator_positive (n := List.length values)) as P.
  specialize (P ltac:(lia)). lra.
Qed.

(** Past the length gate the function returns the direction of the
    (possibly negated) regression slope. *)
Lemma analyze_trend_slope (values : list Q) (reverse : bool) :
  (3 <= List.length values)%nat ->
  _analyze_trend values reverse =
  Ok (direction (if reverse then - regression_slope values
                 else regression_slope values)).
Proof.
  intros H. unfold _analyze_trend.
  assert (L : (Py.len values <? 3)%Z = false)
    by (apply Z.ltb_ge; unfold Py.len; lia).
  rewrite L. destruct values as [|v values]; [simpl in H; lia|].
  cbn [Py.mean bind]. rewrite denominator_guard by exact H.
  unfold Py.true_div. rewrite denominator_guard by exact H.
  reflexivity.
Qed.

Lemma analyze_trend_short (values : list Q) (reverse : bool) :
  (List.length values < 3)%nat -> _analyze_trend values reverse = Ok "unknown".
Proof.
  intros H. unfold _analyze_trend.
  assert (L : (Py.len values <? 3)%Z = true)
    by (apply Z.ltb_lt; unfold Py.len; lia).
  now rewrite L.
Qed.

End Regression.

Section LeastSquares.

Local Open Scope Q_scope.



Variable values : list Q.

Let n := List.length values.
Let V (i : nat) : Q := nth i values 0.
Let S (f : nat -> Q) : Q := Py.sum (map f (Py.range n)).









Hypothesis enough_points : (2 <= n)%nat.



End LeastSquares.

Section OlsSlope.

Local Open Scope Q_scope.


Variable values : list Q.
Hypothesis enough_points : (2 <= List.length values)%nat.



End OlsSlope.

Section Direction.

Local Open Scope Q_scope.

Lemma Qgt_bool_iff (a b : Q) : Qgt_bool a b = true <-> b < a.
Proof.
  unfold Qgt_bool. rewrite negb_true_iff, <- not_true_iff_false, Qle_bool_iff.
  split; [apply Qnot_le_lt | apply Qlt_not_le].
Qed.

Lemma Qlt_bool_iff (a b : Q) : Qlt_bool a b = true <-> a < b.
Proof.
  unfold Qlt_bool. rewrite negb_true_iff, <- not_true_iff_false, Qle_bool_iff.
  split; [apply Qnot_le_lt | apply Qlt_not_le].
Qed.

(** The three outcomes of the threshold comparison. *)
Lemma direction_cases (slope : Q) :
  (0.1 < slope /\ direction slope = "improving")
  \/ (slope < - 0.1 /\ direction slope = "declining")
  \/ (- 0.1 <= slope <= 0.1 /\ direction slope = "stable").
Proof.
  unfold direction. cbv zeta.
  destruct (Qgt_bool slope 0.1) eqn:G.
  - left. split; [now apply Qgt_bool_iff | reflexivity].
  - destruct (Qlt_bool slope (Qopp 0.1)) eqn:L.
    + right; left. split; [now apply Qlt_bool_iff | reflexivity].
    + right; right. split; [|reflexivity].
      apply not_true_iff_false in G, L.
      rewrite Qgt_bool_iff in G. rewrite Qlt_bool_iff in L.
      split; apply Qnot_lt_le; assumption.
Qed.

Lemma direction_improving (slope : Q) :
  0.1 < slope -> direction slope = "improving".
Proof.
  intros H. destruct (direction_cases slope) as [[_ E]|[[H' _]|[[_ H'] _]]];
    [exact E | lra | lra].
Qed.

Lemma direction_declining (slope : Q) :
  slope < - 0.1 -> direction slope = "declining".
Proof.
  intros H. destruct (direction_cases slope) as [[H' _]|[[_ E]|[[H' _] _]]];
    [lra | exact E | lra].
Qed.

Lemma direction_stable (slope : Q) :
  - 0.1 <= slope <= 0.1 -> direction slope = "stable".
Proof.
  intros H. destruct (direction_cases slope) as [[H' _]|[[H' _]|[_ E]]];
    [lra | lra | exact E].
Qed.

Lemma direction_compat (s t : Q) : s == t -> direction s = direction t.
Proof.
  intros E.
  destruct (direction_cases t) as [[H ->]|[[H ->]|[H ->]]].
  - apply direction_improving. lra.
  - apply direction_declining. lra.
  - apply direction_stable. lra.
Qed.

End Direction.

(* ================================================================== *)
(** ** Trend direction: the theorems *)





(** C10.  The regression denominator is strictly positive for every
    length of at least two, so the guard [denominator == 0] is false
    whenever it is evaluated, and [_analyze_trend] returns a direction,
    raising nothing, on every series. *)
Theorem analyze_trend_total :
  (forall n, (2 <= n)%nat -> (0 < denominator_of n)%Q)
  /\
  (forall values : list Q,
     (3 <= List.length values)%nat ->
     Qeq_bool (denominator_of (List.length values)) 0 = false)
  /\
  (forall values reverse,
     exists trend, _analyze_trend values reverse = Ok trend).
Proof.
  split; [|split].
  - intros n. apply denominator_positive.
  - apply denominator_guard.
  - intros values reverse.
    destruct (Nat.lt_ge_cases (List.length values) 3) as [H|H].
    + eexists. now apply analyze_trend_short.
    + eexists. now apply analyze_trend_slope.
Qed.

Lemma analyze_trend_total_witness :
  (2 <= 3)%nat /\ (0 < denominator_of 3)%Q /\
  Qeq_bool (denominator_of (List.length [60; 75; 90]%Q)) 0 = false.
Proof.
  split; [lia|]. split.
  - apply (proj1 analyze_trend_total 3). lia.
  - apply (proj1 (proj2 analyze_trend_total) [60; 75; 90]%Q). simpl. lia.
Defined.

(* ================================================================== *)
(** ** Trend direction under affine transforms *)

Section Affine.

Local Open Scope Q_scope.

Variables a b : Q.

Lemma affine_length (values : list Q) :
  List.length (affine a b values) = List.length values.
Proof. apply length_map. Qed.

Lemma sum_affine (values : list Q) :
  Py.sum (affine a b values) == a * Py.sum values + b * inject_Z (Py.len values).
Proof.
  unfold affine.
  rewrite (sum_map_plus (fun v => a * v) (fun _ => b)).
  rewrite (sum_map_scale a (fun v => v)), map_id, sum_map_const.
  reflexivity.
Qed.

Lemma numerator_affine (values : list Q) (y : Q) :
  numerator_of (affine a b values) (a * y + b) == a * numerator_of values y.
Proof.
  unfold numerator_of. rewrite affine_length.
  rewrite <- (sum_map_scale a).
  apply sum_map_ext. intros i Hi. apply in_seq in Hi.
  unfold affine.
  rewrite (nth_indep _ 0 (a * 0 + b)) by (rewrite length_map; lia).
  rewrite (map_nth (fun v => a * v + b)). ring.
Qed.

Lemma numerator_compat (values : list Q) (y y' : Q) :
  y == y' -> numerator_of values y == numerator_of values y'.
Proof.
  intros E. unfold numerator_of. apply sum_map_ext. intros i _.
  rewrite E. reflexivity.
Qed.

(** The regression slope of the transformed series is [a] times that of
    the original one. *)
Lemma regression_slope_affine (values : list Q) :
  values <> [] ->
  regression_slope (affine a b values) == a * regression_slope values.
Proof.
  intros Hne. unfold regression_slope.
  rewrite affine_length.
  assert (Hn : ~ inject_Z (Py.len values) == 0).
  { unfold Py.len. change 0 with (inject_Z 0). rewrite inject_Z_injective.
    destruct values; [congruence | simpl; lia]. }
  assert (Hlen : Py.len (affine a b values) = Py.len values)
    by (unfold Py.len; now rewrite affine_length).
  rewrite Hlen.
  rewrite (numerator_compat (affine a b values)
             (y' := a * (Py.sum values / inject_Z (Py.len values)) + b)).
  - rewrite numerator_affine. unfold Qdiv. ring.
  - rewrite sum_affine. now field.
Qed.

End Affine.




(* ================================================================== *)
(** ** Flaky tests *)

Section CounterFacts.

Lemma counter_incr_present (G : string -> Z) (k : string) (ks : list string) :
  NoDup ks -> In k ks ->
  Py.counter_incr k (map (fun k' => (k', G k')) ks) =
  map (fun k' => (k', (G k' + (if String.eqb k k' then 1 else 0))%Z)) ks.
Proof.
  induction ks as [|k0 ks IH]; intros ND Hin; [destruct Hin|].
  inversion ND as [|? ? Hnotin ND']; subst. simpl.
  destruct (String.eqb k0 k) eqn:E.
  - apply String.eqb_eq in E. subst k0. rewrite String.eqb_refl. f_equal.
    apply map_ext_in. intros k' Hk'.
    destruct (String.eqb k k') eqn:E'.
    + apply String.eqb_eq in E'. subst. contradiction.
    + now rewrite Z.add_0_r.
  - rewrite String.eqb_sym, E, Z.add_0_r. f_equal.
    apply IH; [exact ND'|]. destruct Hin as [->|Hin]; [|exact Hin].
    rewrite String.eqb_refl in E. discriminate.
Qed.

Lemma counter_incr_absent (G : string -> Z) (k : string) (ks : list string) :
  ~ In k ks ->
  Py.counter_incr k (map (fun k' => (k', G k')) ks) =
  map (fun k' => (k', G k')) ks ++ [(k, 1%Z)].
Proof.
  induction ks as [|k0 ks IH]; intros Hnotin; simpl; [reflexivity|].
  destruct (String.eqb k0 k) eqn:E.
  - apply String.eqb_eq in E. subst. simpl in Hnotin. tauto.
  - rewrite IH; [reflexivity|]. simpl in Hnotin. tauto.
Qed.

Lemma occurrences_snoc (xs : list string) (x k : string) :
  occurrences k (xs ++ [x]) =
  (occurrences k xs + (if String.eqb x k then 1 else 0))%Z.
Proof.
  unfold occurrences, how_many. rewrite filter_app, length_app. simpl.
  destruct (String.eqb x k); simpl; lia.
Qed.

Lemma occurrences_absent (xs : list string) (k : string) :
  ~ In k xs -> occurrences k xs = 0%Z.
Proof.
  unfold occurrences, how_many. intros H.
  rewrite filter_none; [reflexivity|].
  intros x Hx. apply String.eqb_neq. intros ->. contradiction.
Qed.

Lemma occurrences_present (xs : list string) (k : string) :
  In k xs -> (1 <= occurrences k xs)%Z.
Proof.
  unfold occurrences, how_many. intros H.
  assert (Hin : In k (filter (fun x => String.eqb x k) xs))
    by (apply filter_In; split; [exact H | apply String.eqb_refl]).
  destruct (filter _ xs); [destruct Hin | simpl; lia].
Qed.

(** The counter built from a sequence: one entry per distinct element, in
    the order they are first met, with its number of occurrences. *)
Lemma Counter_spec (xs : list string) :
  Py.Counter xs = map (fun k => (k, occurrences k xs)) (first_seen xs).
Proof.
  induction xs as [|x xs IH] using rev_ind; [reflexivity|].
  unfold Py.Counter in *. rewrite fold_left_app, IH. cbn [fold_left].
  rewrite first_seen_snoc. unfold see.
  destruct (existsb _ _) eqn:E.
  - apply existsb_eqb_In in E.
    rewrite counter_incr_present by (auto using first_seen_NoDup).
    apply map_ext. intros k. now rewrite occurrences_snoc.
  - assert (Hnot : ~ In x (first_seen xs)).
    { intros H. apply existsb_eqb_In in H. congruence. }
    rewrite counter_incr_absent by exact Hnot.
    rewrite map_app. simpl. f_equal.
    + apply map_ext_in. intros k Hk. rewrite occurrences_snoc.
      destruct (String.eqb x k) eqn:E'.
      * apply String.eqb_eq in E'. subst. contradiction.
      * now rewrite Z.add_0_r.
    + rewrite occurrences_snoc, String.eqb_refl.
      rewrite occurrences_absent; [reflexivity|].
      now rewrite <- first_seen_In.
Qed.

Lemma min_spec (xs : list Z) :
  xs <> [] ->
  exists m, Py.min xs = Ok m /\ In m xs /\ forall x, In x xs -> (m <= x)%Z.
Proof.
  destruct xs as [|x xs]; [congruence|]. intros _. simpl.
  eexists. split; [reflexivity|].
  revert x. induction xs as [|y ys IH]; intros x; simpl.
  - split; [now left|]. intros z [<-|[]]. lia.
  - destruct (IH (Z.min x y)) as [Hin Hle]. split.
    + destruct Hin as [Hin|Hin]; [|now right; right].
      rewrite <- Hin.
      destruct (Z.min_spec x y) as [[_ ->]|[_ ->]]; [now left | right; now left].
    + intros z [Hz|[Hz|Hz]].
      * specialize (Hle (Z.min x y) (or_introl eq_refl)). lia.
      * specialize (Hle (Z.min x y) (or_introl eq_refl)). lia.
      * apply Hle. now right.
Qed.

End CounterFacts.

Section Flaky.

Lemma distinct_two (statuses : list string) :
  (1 < Py.distinct statuses)%Z <->
  exists s1 s2, In s1 statuses /\ In s2 statuses /\ s1 <> s2.
Proof.
  unfold Py.distinct, Py.len.
  pose proof (NoDup_nodup string_dec statuses) as ND.
  pose proof (nodup_In string_dec statuses) as Hin.
  destruct (nodup string_dec statuses) as [|x [|y l]] eqn:E.
  - split; [simpl; lia|]. intros (s1 & _ & H1 & _). apply Hin in H1.
    destruct H1.
  - split; [simpl; lia|]. intros (s1 & s2 & H1 & H2 & Hne).
    apply Hin in H1, H2. simpl in H1, H2. intuition congruence.
  - split; [|simpl List.length; lia]. intros _. exists x, y.
    split; [apply Hin; now left|]. split; [apply Hin; right; now left|].
    inversion ND as [|? ? Hx _]; subst. intros ->. apply Hx. now left.
Qed.

Lemma share_threshold (m n : Z) :
  (0 < n)%Z ->
  Qle_bool 0.2 (inject_Z m / inject_Z n) = true <-> (n <= 5 * m)%Z.
Proof.
  intros Hn. rewrite Qle_bool_iff.
  destruct n as [|p|p]; try lia.
  rewrite <- Qmake_Qdiv. unfold Qle. cbn [Qnum Qden]. lia.
Qed.

Lemma counts_of_Counter (statuses : list string) :
  map snd (Py.Counter statuses) =
  map (fun s => occurrences s statuses) (first_seen statuses).
Proof. rewrite Counter_spec, map_map. reflexivity. Qed.

Lemma flagged_flaky_iff (statuses : list string) :
  flagged_flaky statuses = true <-> flaky statuses.
Proof.
  unfold flagged_flaky, flaky.
  rewrite !andb_true_iff, Z.ltb_lt, Z.leb_le, distinct_two.
  assert (Hlen : (3 <= Py.len statuses)%Z <-> (3 <= List.length statuses)%nat)
    by (unfold Py.len; lia).
  rewrite Hlen. clear Hlen.
  split.
  - intros [[Hd Hl] Hm]. split; [exact Hl|]. split; [exact Hd|].
    intros s Hs.
    destruct (Py.min _) as [m|] eqn:Em; [|discriminate].
    apply share_threshold in Hm; [|unfold Py.len; lia].
    assert (Hne : map snd (Py.Counter statuses) <> []).
    { rewrite counts_of_Counter. apply first_seen_In in Hs.
      destruct (first_seen statuses); [destruct Hs | discriminate]. }
    destruct (min_spec Hne) as (m' & Em' & _ & Hle).
    rewrite Em in Em'. injection Em' as <-.
    specialize (Hle (occurrences s statuses)).
    rewrite counts_of_Counter in Hle.
    assert (m <= occurrences s statuses)%Z.
    { apply Hle. apply in_map_iff. exists s. split; [reflexivity|].
      now apply first_seen_In. }
    lia.
  - intros (Hl & Hd & Hshare). split; [split; assumption|].
    assert (Hne : map snd (Py.Counter statuses) <> []).
    { rewrite counts_of_Counter.
      destruct statuses as [|s0 rest]; [simpl in Hl; lia|].
      assert (Hs0 : In s0 (first_seen (s0 :: rest)))
        by (apply first_seen_In; now left).
      destruct (first_seen (s0 :: rest)); [destruct Hs0 | discriminate]. }
    destruct (min_spec Hne) as (m & Em & Hin & _).
    rewrite Em. apply share_threshold; [unfold Py.len; lia|].
    rewrite counts_of_Counter in Hin. apply in_map_iff in Hin.
    destruct Hin as (s & <- & Hs). apply Hshare. now apply first_seen_In.
Qed.

(** The loop body appends the name exactly when the test is flagged, and
    raises nothing. *)
Lemma flaky_step_decides (acc : list string) (item : string * list string) :
  flaky_step acc item =
  Ok (acc ++ (if flagged_flaky (snd item) then [fst item] else [])).
Proof.
  unfold flaky_step, flagged_flaky.
  destruct ((1 <? Py.distinct (snd item))%Z && (3 <=? Py.len (snd item))%Z)
    eqn:G; cbn [andb]; [|now rewrite app_nil_r].
  apply andb_true_iff in G. destruct G as [_ G]. apply Z.leb_le in G.
  assert (Hne : map snd (Py.Counter (snd item)) <> []).
  { rewrite counts_of_Counter.
    destruct (snd item) as [|s0 rest]; [unfold Py.len in G; simpl in G; lia|].
    assert (Hs0 : In s0 (first_seen (s0 :: rest)))
      by (apply first_seen_In; now left).
    destruct (first_seen (s0 :: rest)); [destruct Hs0 | discriminate]. }
  destruct (min_spec Hne) as (m & Em & _). rewrite Em. cbn [bind].
  unfold Py.true_div.
  assert (Hn : Qeq_bool (inject_Z (Py.len (snd item))) 0 = false).
  { apply not_true_iff_false. intros E. apply Qeq_bool_iff in E.
    change 0%Q with (inject_Z 0) in E. rewrite inject_Z_injective in E.
    lia. }
  rewrite Hn. cbn [bind].
  destruct (Qle_bool _ _); [reflexivity | now rewrite app_nil_r].
Qed.

Lemma filter_map_keys {V : Type} (p : list V -> bool) (F : string -> list V)
    (ks : list string) :
  map fst (filter (fun item => p (snd item)) (map (fun k => (k, F k)) ks)) =
  filter (fun k => p (F k)) ks.
Proof.
  induction ks as [|k ks IH]; simpl; [reflexivity|].
  destruct (p (F k)); simpl; now rewrite IH.
Qed.

(** The flaky tests are the flagged names, in the order in which the
    names are first met among the recent results, cut after ten. *)
Lemma identify_flaky_tests_spec self now days_back :
  _identify_flaky_tests self now days_back =
  Ok (firstn 10
        (filter
           (fun name =>
              flagged_flaky
                (statuses_of (recent_results self now days_back) name))
           (first_seen
              (map TestResult.name (recent_results self now days_back))))).
Proof.
  unfold _identify_flaky_tests.
  rewrite for_each_appending with
    (g := fun item : string * list string =>
            if flagged_flaky (snd item) then [fst item] else [])
    by (intros; apply flaky_step_decides).
  cbn [bind app]. rewrite flat_map_guard, group_by_spec.
  now rewrite (filter_map_keys flagged_flaky).
Qed.

End Flaky.

(** C5, as specified, fails.  With four passes, one failure and one broken
    run, two runs in six disagree with the majority outcome, a fraction
    above [0.2], and there are three runs or more and several statuses;
    the least frequent status has one run in six, and the test is not
    reported. *)
Lemma majority_disagreement_not_reported :
  (3 <= Py.len mostly_passing)%Z /\
  (1 < Py.distinct mostly_passing)%Z /\
  disagreeing_with_majority mostly_passing = 2%Z /\
  (0.2 <= inject_Z (disagreeing_with_majority mostly_passing)
          / inject_Z (Py.len mostly_passing))%Q /\
  _identify_flaky_tests
    (analyzer_with (runs_of "suite.test_a" mostly_passing)) 0 30 = Ok [].
Proof.
  split; [vm_compute; discriminate|].
  split; [vm_compute; reflexivity|].
  split; [vm_compute; reflexivity|].
  split; [vm_compute; discriminate|].
  vm_compute. reflexivity.
Qed.

(** C5, as the code has it.  Within the window, the reported names are
    the names of the flaky tests in the order in which the names are
    first met, cut after ten, where a test is flaky if and only if it has
    at least three results, more than one distinct status, and its least
    frequent status (hence every status it has) accounts for at least
    [0.2] of its runs, the bound included.  One failure in five runs is
    reported, one failure in six runs is not. *)
Theorem flaky_tests_reported (self : TrendAnalyzer.t) (now days_back : Z) :
  (exists flagged : string -> bool,
     (forall name,
        flagged name = true <->
        flaky (statuses_of (in_window self now days_back) name)) /\
     _identify_flaky_tests self now days_back =
     Ok (firstn 10
           (filter flagged
              (first_seen
                 (map TestResult.name (in_window self now days_back))))))
  /\ _identify_flaky_tests
       (analyzer_with
          (runs_of "suite.test_a"
             ["passed"; "failed"; "passed"; "passed"; "passed"])) 0 30
     = Ok ["suite.test_a"]
  /\ _identify_flaky_tests
       (analyzer_with
          (runs_of "suite.test_a"
             ["passed"; "passed"; "passed"; "passed"; "passed"; "failed"]))
       0 30
     = Ok [].
Proof.
  split; [|split; vm_compute; reflexivity].
  exists (fun name =>
            flagged_flaky (statuses_of (in_window self now days_back) name)).
  split.
  - intros name. apply flagged_flaky_iff.
  - apply identify_flaky_tests_spec.
Qed.

(* ================================================================== *)
(** ** Performance regressions *)

Section Regressions.

Lemma mean_average (xs : list Q) : xs <> [] -> Py.mean xs = Ok (average xs).
Proof. destruct xs; [congruence | reflexivity]. Qed.

Lemma chronological_durations_length (points : list (Z * Q)) :
  List.length (chronological_durations points) = List.length points.
Proof.
  unfold chronological_durations. now rewrite length_map, sort_by_key_length.
Qed.

Lemma halves_nonempty (points : list (Z * Q)) :
  (5 <= List.length points)%nat ->
  early_half points <> [] /\ recent_half points <> [].
Proof.
  intros H. unfold early_half, recent_half.
  pose proof (chronological_durations_length points) as L.
  pose proof (Nat.div_mod_eq (List.length points) 2) as D.
  pose proof (Nat.mod_upper_bound (List.length points) 2 ltac:(lia)) as M.
  split; intros E; apply (f_equal (@List.length Q)) in E;
    [rewrite length_firstn in E | rewrite length_skipn in E];
    change (List.length (@nil Q)) with 0%nat in E; lia.
Qed.

(** The loop body appends the name exactly when the test is flagged, and
    raises nothing. *)
Lemma regression_step_decides (acc : list string) (item : string * list (Z * Q)) :
  regression_step acc item =
  Ok (acc ++ (if flagged_regression (snd item) then [fst item] else [])).
Proof.
  unfold regression_step, flagged_regression.
  destruct (Py.len (snd item) <? 5)%Z eqn:G.
  - apply Z.ltb_lt in G.
    assert (G' : (5 <=? Py.len (snd item))%Z = false) by (apply Z.leb_gt; lia).
    rewrite G'. cbn [andb]. now rewrite app_nil_r.
  - apply Z.ltb_ge in G.
    assert (G' : (5 <=? Py.len (snd item))%Z = true) by (apply Z.leb_le; lia).
    rewrite G'. cbn [andb].
    assert (H5 : (5 <= List.length (snd item))%nat) by (unfold Py.len in G; lia).
    destruct (@halves_nonempty (snd item) H5) as [He Hr].
    unfold early_half, recent_half, chronological_durations in *.
    rewrite length_map, sort_by_key_length.
    rewrite (mean_average He), (mean_average Hr). cbn [bind].
    destruct (_ && _); [reflexivity | now rewrite app_nil_r].
Qed.

Lemma flagged_regression_iff (points : list (Z * Q)) :
  flagged_regression points = true <-> regressed points.
Proof.
  unfold flagged_regression, regressed.
  rewrite !andb_true_iff, Z.leb_le, !Qgt_bool_iff. unfold Py.len.
  split; intros [[H1 H2] H3] || intros (H1 & H2 & H3);
    repeat split; try assumption; lia.
Qed.

(** The regressions are the flagged names, in the order in which the
    names are first met among the recent results, cut after ten. *)
Lemma identify_performance_regressions_spec self now days_back :
  _identify_performance_regressions self now days_back =
  Ok (firstn 10
        (filter
           (fun name =>
              flagged_regression
                (points_of (recent_results self now days_back) name))
           (first_seen
              (map TestResult.name (recent_results self now days_back))))).
Proof.
  unfold _identify_performance_regressions.
  rewrite for_each_appending with
    (g := fun item : string * list (Z * Q) =>
            if flagged_regression (snd item) then [fst item] else [])
    by (intros; apply regression_step_decides).
  cbn [bind app]. rewrite flat_map_guard, group_by_spec.
  now rewrite (filter_map_keys flagged_regression).
Qed.

End Regressions.


(* ================================================================== *)
(** * Further properties of the analyzer *)

(** ** Result parser: acceptance, labels, categories *)

Section ParserFacts.


Lemma labels_dict_well_formed (pairs : list (string * string)) :
  labels_dict (map label_of pairs) = Ok pairs.
Proof.
  induction pairs as [|[n v] ps IH]; simpl; [reflexivity|].
  now rewrite IH.
Qed.

Lemma dict_get_none {V : Type} (k : string) (kvs : list (string * V)) :
  Py.dict_get k kvs = None <-> ~ In k (map fst kvs).
Proof.
  induction kvs as [|[k' v] kvs IH]; simpl; [tauto|].
  destruct (Py.dict_get k kvs) as [v'|] eqn:E.
  - split; [discriminate|]. intros H. exfalso.
    assert (Hn : ~ In k (map fst kvs)) by tauto.
    apply IH in Hn. discriminate.
  - destruct (String.eqb k' k) eqn:Ek.
    + apply String.eqb_eq in Ek. split; [discriminate | tauto].
    + apply String.eqb_neq in Ek. split; [|reflexivity].
      intros _ [H|H]; [congruence|]. now apply (proj1 IH).
Qed.

(** A dict built from pairs keeps, for each key, the value of the last
    pair with that key. *)
Lemma dict_get_last {V : Type} (k : string) (v : V)
    (before after : list (string * V)) :
  ~ In k (map fst after) ->
  Py.dict_get k (before ++ (k, v) :: after) = Some v.
Proof.
  intros H. induction before as [|[k' v'] before IH]; simpl.
  - apply dict_get_none in H. now rewrite H, String.eqb_refl.
  - now rewrite IH.
Qed.

End ParserFacts.


Lemma lower_ascii_idempotent (c : ascii) :
  Str.lower_ascii (Str.lower_ascii c) = Str.lower_ascii c.
Proof.
  destruct c as [b0 b1 b2 b3 b4 b5 b6 b7].
  destruct b0, b1, b2, b3, b4, b5, b6, b7; reflexivity.
Qed.

Lemma lower_idempotent (s : string) : Str.lower (Str.lower s) = Str.lower s.
Proof.
  induction s as [|c s IH]; simpl; [reflexivity|].
  now rewrite lower_ascii_idempotent, IH.
Qed.

Lemma categorize_test_in_taxonomy name status e :
  In (_categorize_test name status e) taxonomy.
Proof.
  unfold _categorize_test, taxonomy.
  destruct (status =? "passed"); [simpl; tauto|].
  destruct e as [msg|]; [|simpl; tauto].
  destruct (negb (Str.truthy msg)); [simpl; tauto|]. cbv zeta.
  repeat (destruct (any_keyword_in _ _); [simpl; tauto|]).
  simpl; tauto.
Qed.

Lemma categorize_test_passed_iff name status e :
  _categorize_test name status e = "passed" <-> status = "passed".
Proof.
  split.
  - intros H. pose proof (categorize_test_in_spec name status e) as R.
    rewrite H in R. now inversion R.
  - intros ->. reflexivity.
Qed.

(** X2.  Every parsed result carries a category of the seven-element
    taxonomy, computed from its own lower-cased status and error message;
    the category is [passed] exactly when the status is, and the status
    is stored in lower case, so a raw status [PASSED] counts as passed. *)
Theorem parsed_result_category self_framework now data r :
  _parse_test_result self_framework now data = Some r ->
  exists c,
    TestResult.category r = Some c /\
    c = _categorize_test (TestResult.name r) (TestResult.status r)
          (TestResult.error_message r) /\
    In c taxonomy /\
    (c = "passed" <-> TestResult.status r = "passed") /\
    Str.lower (TestResult.status r) = TestResult.status r /\
    TestResult.status r
    = Str.lower (match RawResult.status data with
                 | Some st => st
                 | None => "unknown"
                 end).
Proof.
  unfold _parse_test_result, parse_test_result_body, get_or.
  destruct (labels_dict _) as [d|e]; simpl; [|discriminate].
  intros H. injection H as <-. simpl.
  eexists. split; [reflexivity|]. split; [reflexivity|].
  split; [apply categorize_test_in_taxonomy|].
  split; [apply categorize_test_passed_iff|].
  split; [apply lower_idempotent | reflexivity].
Qed.

Lemma parsed_result_category_witness :
  exists c,
    option_map TestResult.category
      (_parse_test_result "auto" 0 raw_clock_skew) = Some (Some c) /\
    In c taxonomy.
Proof.
  destruct (_parse_test_result "auto" 0 raw_clock_skew) as [r|] eqn:E;
    [|vm_compute in E; discriminate].
  destruct (parsed_result_category "auto" 0 raw_clock_skew E)
    as (c & Hc & _ & Hin & _).
  exists c. simpl. rewrite Hc. split; [reflexivity | exact Hin].
Defined.

(** X3.  The build number, branch and framework of a parsed result are
    looked up among the labels as in a dict built from them: the last
    label with the name decides, and without such a label the build number
    and the branch are ["unknown"] and the framework is the analyzer's
    own. *)
Theorem parsed_result_labels self_framework now data pairs r :
  RawResult.labels data = Some (map label_of pairs) ->
  _parse_test_result self_framework now data = Some r ->
  (~ In "build" (map fst pairs) -> TestResult.build_number r = "unknown") /\
  (~ In "branch" (map fst pairs) -> TestResult.branch r = "unknown") /\
  (~ In "framework" (map fst pairs) ->
   TestResult.framework r = self_framework) /\
  (forall before v after,
     pairs = before ++ ("build", v) :: after ->
     ~ In "build" (map fst after) -> TestResult.build_number r = v) /\
  (forall before v after,
     pairs = before ++ ("branch", v) :: after ->
     ~ In "branch" (map fst after) -> TestResult.branch r = v) /\
  (forall before v after,
     pairs = before ++ ("framework", v) :: after ->
     ~ In "framework" (map fst after) -> TestResult.framework r = v).
Proof.
  intros Hl. unfold _parse_test_result, parse_test_result_body.
  rewrite Hl. cbn [get_or]. rewrite labels_dict_well_formed. cbn [bind].
  intros H. injection H as <-. cbn [TestResult.build_number
    TestResult.branch TestResult.framework].
  repeat split.
  - intros Hn. apply dict_get_none in Hn. now rewrite Hn.
  - intros Hn. apply dict_get_none in Hn. now rewrite Hn.
  - intros Hn. apply dict_get_none in Hn. now rewrite Hn.
  - intros before v after -> Hn. now rewrite dict_get_last.
  - intros before v after -> Hn. now rewrite dict_get_last.
  - intros before v after -> Hn. now rewrite dict_get_last.
Qed.

Lemma parsed_result_labels_witness :
  let pairs := [("build", "41"); ("branch", "main"); ("build", "42")] in
  let data :=
    RawResult.mk (Some "suite.test_a") None (Some "passed")
      (Some 1000%Z) (Some 2000%Z) (Some (map label_of pairs)) None in
  option_map TestResult.build_number (_parse_test_result "auto" 0 data)
  = Some "42".
Proof.
  intros pairs data.
  destruct (_parse_test_result "auto" 0 data) as [r|] eqn:E;
    [|vm_compute in E; discriminate].
  destruct (parsed_result_labels "auto" 0 data pairs eq_refl E)
    as (_ & _ & _ & Hb & _).
  simpl. f_equal.
  apply (Hb [("build", "41"); ("branch", "main")] "42" []); [reflexivity|].
  intros [].
Defined.

(* ================================================================== *)
(** ** Build aggregator: builds, counts, pass rate, timestamp *)

Section IntSums.

Lemma sum_int_from (xs : list Z) (a : Z) :
  fold_left Z.add xs a = (a + Py.sum_int xs)%Z.
Proof.
  unfold Py.sum_int. revert a. induction xs as [|x xs IH]; intros a; simpl.
  - lia.
  - rewrite IH, (IH x). lia.
Qed.

Lemma sum_int_cons (x : Z) (xs : list Z) :
  Py.sum_int (x :: xs) = (x + Py.sum_int xs)%Z.
Proof. unfold Py.sum_int at 1. simpl. now rewrite sum_int_from. Qed.

Lemma sum_int_map_plus {A : Type} (f g : A -> Z) (l : list A) :
  Py.sum_int (map (fun x => (f x + g x)%Z) l) =
  (Py.sum_int (map f l) + Py.sum_int (map g l))%Z.
Proof.
  induction l as [|x l IH]; simpl; [reflexivity|].
  rewrite !sum_int_cons, IH. lia.
Qed.

Lemma sum_int_map_ext {A : Type} (f g : A -> Z) (l : list A) :
  (forall x, In x l -> f x = g x) ->
  Py.sum_int (map f l) = Py.sum_int (map g l).
Proof. intros H. f_equal. now apply map_ext_in. Qed.

(** Over a duplicate-free list of keys, exactly one key is the given
    one. *)
Lemma sum_int_indicator (k : string) (ks : list string) :
  NoDup ks ->
  Py.sum_int (map (fun k' => if String.eqb k k' then 1%Z else 0%Z) ks) =
  if existsb (String.eqb k) ks then 1%Z else 0%Z.
Proof.
  induction ks as [|k0 ks IH]; intros ND; [reflexivity|].
  inversion ND as [|? ? Hnot ND']; subst. simpl map. rewrite sum_int_cons.
  rewrite IH by exact ND'. cbn [existsb].
  destruct (String.eqb k k0) eqn:E; cbn [orb]; [|reflexivity].
  apply String.eqb_eq in E. subst.
  destruct (existsb (String.eqb k0) ks) eqn:Ex; [|reflexivity].
  apply existsb_eqb_In in Ex. contradiction.
Qed.

(** Filing the elements of a list under their keys loses and repeats
    nothing. *)
Lemma filed_lengths_add_up {A : Type} (key : A -> string) (xs : list A)
    (ks : list string) :
  NoDup ks ->
  (forall x, In x xs -> In (key x) ks) ->
  Py.sum_int
    (map (fun k => how_many (fun x => String.eqb (key x) k) xs) ks)
  = Py.len xs.
Proof.
  intros ND. induction xs as [|x xs IH]; intros Hk.
  - unfold how_many, Py.len. simpl. clear ND Hk.
    induction ks as [|k ks IHk]; [reflexivity|].
    simpl map. now rewrite sum_int_cons, IHk.
  - rewrite (sum_int_map_ext _
      (fun k => ((if String.eqb (key x) k then 1 else 0)
                 + how_many (fun y => String.eqb (key y) k) xs)%Z)).
    2:{ intros k _. unfold how_many. cbn [filter].
        destruct (String.eqb (key x) k); cbn [List.length]; lia. }
    rewrite sum_int_map_plus, sum_int_indicator by exact ND.
    rewrite IH by (intros y Hy; apply Hk; now right).
    assert (Hin : existsb (String.eqb (key x)) ks = true)
      by (apply existsb_eqb_In, Hk; now left).
    rewrite Hin. unfold Py.len. cbn [List.length]. lia.
Qed.

End IntSums.

Section AggregateFacts.

Lemma results_of_build_present (results : list TestResult.t) (b : string) :
  In b (map TestResult.build_number results) ->
  results_of_build results b <> [].
Proof.
  intros Hin E. apply in_map_iff in Hin. destruct Hin as [r [Hb Hr]].
  assert (Hf : In r (results_of_build results b)).
  { apply filter_In. split; [exact Hr|]. rewrite Hb. apply String.eqb_refl. }
  rewrite E in Hf. destruct Hf.
Qed.

(** The aggregation as a map over the build numbers in the order they
    are first met. *)
Lemma aggregate_as_map (results : list TestResult.t) :
  exists summary_of : string -> BuildSummary.t,
    aggregate results =
    map summary_of (first_seen (map TestResult.build_number results)) /\
    forall b, In b (map TestResult.build_number results) ->
              summarize b (results_of_build results b) = Some (summary_of b).
Proof.
  exists (fun b =>
            match summarize b (results_of_build results b) with
            | Some s => s
            | None => BuildSummary.mk "" 0 "" "" 0 0 0 0 0 0 0
            end).
  assert (Hsome : forall b, In b (map TestResult.build_number results) ->
            exists s, summarize b (results_of_build results b) = Some s).
  { intros b Hb. apply results_of_build_present in Hb.
    destruct (results_of_build results b); [congruence|].
    eexists. reflexivity. }
  split.
  - rewrite aggregate_flat_map, group_by_spec.
    assert (Hks : forall k, In k (first_seen (map TestResult.build_number results))
                            -> In k (map TestResult.build_number results))
      by (intros k; apply first_seen_In).
    induction (first_seen (map TestResult.build_number results)) as [|k ks IH];
      [reflexivity|].
    cbn [map flat_map fst snd].
    assert (Hf : filed_under TestResult.build_number (fun r => r) results k
                 = results_of_build results k)
      by (unfold filed_under, results_of_build; apply map_id).
    rewrite Hf. destruct (Hsome k) as [s Hs]; [apply Hks; now left|].
    rewrite Hs. cbn [app]. f_equal. apply IH. intros k' Hk'. apply Hks.
    now right.
  - intros b Hb. destruct (Hsome b Hb) as [s Hs]. now rewrite Hs.
Qed.

Lemma summarize_build_number (b : string) (rs : list TestResult.t)
    (s : BuildSummary.t) :
  summarize b rs = Some s -> BuildSummary.build_number s = b.
Proof.
  destruct rs; simpl; [discriminate|]. intros H. now injection H as <-.
Qed.

End AggregateFacts.

(** X4.  The aggregation yields exactly one summary per distinct build
    number of the results, in the order in which the build numbers are
    first met; no build is dropped and none is summarised twice. *)
Theorem aggregate_one_summary_per_build (results : list TestResult.t) :
  map BuildSummary.build_number (aggregate results)
  = first_seen (map TestResult.build_number results)
  /\ NoDup (map BuildSummary.build_number (aggregate results))
  /\ (forall b, In b (map BuildSummary.build_number (aggregate results))
                <-> In b (map TestResult.build_number results)).
Proof.
  destruct (aggregate_as_map results) as (f & Ha & Hf).
  assert (E : map BuildSummary.build_number (aggregate results)
              = first_seen (map TestResult.build_number results)).
  { rewrite Ha, map_map.
    transitivity (map (fun b : string => b)
                    (first_seen (map TestResult.build_number results)));
      [|apply map_id].
    apply map_ext_in. intros b Hb. rewrite first_seen_In in Hb.
    eapply summarize_build_number, Hf, Hb. }
  rewrite E. split; [reflexivity|].
  split; [apply first_seen_NoDup | intros b; apply first_seen_In].
Qed.

(** X5.  The aggregation partitions the results: the [total_tests] of
    the summaries add up to the number of results. *)
Theorem aggregate_totals_add_up (results : list TestResult.t) :
  Py.sum_int (map BuildSummary.total_tests (aggregate results))
  = Py.len results.
Proof.
  destruct (aggregate_as_map results) as (f & Ha & Hf).
  rewrite Ha, map_map.
  rewrite <- (filed_lengths_add_up TestResult.build_number results
                (ks := first_seen (map TestResult.build_number results))).
  - apply sum_int_map_ext. intros b Hb. rewrite first_seen_In in Hb.
    apply Hf, summarize_fields in Hb. destruct Hb as [-> _].
    reflexivity.
  - apply first_seen_NoDup.
  - intros r Hr. apply first_seen_In. now apply in_map.
Qed.

Section PassRate.

Local Open Scope Q_scope.

Lemma pass_rate_of_bounds (passed total : Z) :
  (0 < total)%Z -> (0 <= passed <= total)%Z ->
  0 <= pass_rate_of passed total <= 100 /\
  (pass_rate_of passed total == 100 <-> passed = total) /\
  (pass_rate_of passed total == 0 <-> passed = 0%Z).
Proof.
  intros Ht Hp. unfold pass_rate_of.
  assert (E : (0 <? total)%Z = true) by now apply Z.ltb_lt.
  rewrite E. destruct total as [|t|t]; try lia.
  rewrite <- Qmake_Qdiv. unfold Qle, Qeq, Qmult. cbn [Qnum Qden].
  rewrite !Pos2Z.inj_mul. lia.
Qed.

End PassRate.

Lemma how_many_le_len {A : Type} (p : A -> bool) (xs : list A) :
  (how_many p xs <= Py.len xs)%Z.
Proof.
  unfold how_many, Py.len. pose proof (filter_length_le p xs). lia.
Qed.

Lemma how_many_all {A : Type} (p : A -> bool) (xs : list A) :
  how_many p xs = Py.len xs <-> Forall (fun x => p x = true) xs.
Proof.
  unfold how_many, Py.len. induction xs as [|x xs IH]; simpl.
  - split; [constructor | reflexivity].
  - pose proof (filter_length_le p xs) as L.
    destruct (p x) eqn:E; simpl.
    + split.
      * intros H. constructor; [exact E|]. apply IH. lia.
      * intros H. inversion H; subst. apply IH in H3. lia.
    + split; [lia | inversion 1; congruence].
Qed.

Lemma how_many_none {A : Type} (p : A -> bool) (xs : list A) :
  how_many p xs = 0%Z <-> Forall (fun x => p x = false) xs.
Proof.
  unfold how_many. induction xs as [|x xs IH]; simpl.
  - split; [constructor | reflexivity].
  - destruct (p x) eqn:E; simpl.
    + split; [lia | inversion 1; congruence].
    + rewrite IH. split; [now constructor | now inversion 1].
Qed.

Lemma summarize_pass_rate (b : string) (rs : list TestResult.t)
    (s : BuildSummary.t) :
  summarize b rs = Some s ->
  BuildSummary.pass_rate s
  = pass_rate_of (BuildSummary.passed_tests s) (BuildSummary.total_tests s)
  /\ rs <> [].
Proof.
  destruct rs; simpl; [discriminate|]. intros H. injection H as <-.
  split; [reflexivity | discriminate].
Qed.

(** X6.  The pass rate of an aggregated build lies between 0 and 100; it
    is 100 exactly when every result of the build passed and 0 exactly
    when none did. *)
Theorem aggregate_pass_rate (results : list TestResult.t)
    (s : BuildSummary.t) :
  In s (aggregate results) ->
  let rs := results_of_build results (BuildSummary.build_number s) in
  (0 <= BuildSummary.pass_rate s <= 100)%Q /\
  ((BuildSummary.pass_rate s == 100)%Q <->
   Forall (fun r => TestResult.status r = "passed") rs) /\
  ((BuildSummary.pass_rate s == 0)%Q <->
   Forall (fun r => TestResult.status r <> "passed") rs).
Proof.
  intros Hin rs. apply aggregate_In in Hin. destruct Hin as [_ Hs].
  fold rs in Hs.
  destruct (summarize_pass_rate _ _ Hs) as [Hr Hne].
  apply summarize_fields in Hs. destruct Hs as (Ht & Hp & _).
  rewrite Hr, Ht, Hp. unfold with_status.
  pose proof (how_many_le_len
    (fun r => String.eqb (TestResult.status r) "passed") rs) as Hle.
  pose proof (how_many_nonneg
    (fun r => String.eqb (TestResult.status r) "passed") rs) as H0.
  assert (Hpos : (0 < Py.len rs)%Z).
  { unfold Py.len. destruct rs; [congruence | simpl; lia]. }
  destruct (pass_rate_of_bounds Hpos (conj H0 Hle)) as (Hb & H100 & Hz).
  split; [exact Hb|]. split.
  - rewrite H100, how_many_all.
    split; intros H; (eapply Forall_impl; [|exact H]); intros r;
      apply String.eqb_eq.
  - rewrite Hz, how_many_none.
    split; intros H; (eapply Forall_impl; [|exact H]); intros r;
      apply String.eqb_neq.
Qed.

Lemma aggregate_pass_rate_witness :
  let results := runs_of "suite.test_a" ["passed"; "unknown"] in
  let s := BuildSummary.mk "1" 0 "main" "pytest" 2 1 0 0 0 (0 + 1 + 1)
             (pass_rate_of 1 2) in
  In s (aggregate results) /\
  (0 <= BuildSummary.pass_rate s <= 100)%Q.
Proof.
  intros results s.
  assert (H : In s (aggregate results)) by (left; reflexivity).
  split; [exact H|].
  exact (proj1 (aggregate_pass_rate results s H)).
Defined.

Lemma max_from_spec (x : Z) (xs : list Z) :
  In (Py.max_from x xs) (x :: xs) /\
  forall y, In y (x :: xs) -> (y <= Py.max_from x xs)%Z.
Proof.
  unfold Py.max_from. revert x. induction xs as [|z zs IH]; intros x; simpl.
  - split; [now left|]. intros y [<-|[]]. lia.
  - destruct (IH (Z.max x z)) as [Hin Hle]. split.
    + destruct Hin as [Hin|Hin]; [|now right; right].
      rewrite <- Hin.
      destruct (Z.max_spec x z) as [[_ ->]|[_ ->]]; [right; now left | now left].
    + intros y [Hy|[Hy|Hy]].
      * specialize (Hle (Z.max x z) (or_introl eq_refl)). lia.
      * specialize (Hle (Z.max x z) (or_introl eq_refl)). lia.
      * apply Hle. now right.
Qed.

(** X7.  An aggregated build takes its branch and framework from the
    first result of the build, its duration is the sum of the durations
    of the build's results, and its timestamp is the latest of their
    timestamps: no result of the build is later, and one of them has it. *)
Theorem aggregate_summary_of_results (results : list TestResult.t)
    (s : BuildSummary.t) :
  In s (aggregate results) ->
  exists first rest,
    results_of_build results (BuildSummary.build_number s) = first :: rest /\
    BuildSummary.branch s = TestResult.branch first /\
    BuildSummary.framework s = TestResult.framework first /\
    BuildSummary.duration s
    = Py.sum (map TestResult.duration (first :: rest)) /\
    (forall r, In r (first :: rest) ->
               (TestResult.timestamp r <= BuildSummary.timestamp s)%Z) /\
    (exists r, In r (first :: rest) /\
               TestResult.timestamp r = BuildSummary.timestamp s).
Proof.
  intros Hin. apply aggregate_In in Hin. destruct Hin as [_ Hs].
  destruct (results_of_build results (BuildSummary.build_number s))
    as [|first rest]; simpl in Hs; [discriminate|].
  exists first, rest. injection Hs as <-. cbn [BuildSummary.branch
    BuildSummary.framework BuildSummary.duration BuildSummary.timestamp].
  repeat split.
  - intros r Hr.
    apply (proj2 (max_from_spec (TestResult.timestamp first)
                    (map TestResult.timestamp rest))).
    change (In (TestResult.timestamp r)
              (map TestResult.timestamp (first :: rest))).
    now apply in_map.
  - destruct (max_from_spec (TestResult.timestamp first)
                (map TestResult.timestamp rest)) as [Hm _].
    change (In (Py.max_from (TestResult.timestamp first)
                  (map TestResult.timestamp rest))
              (map TestResult.timestamp (first :: rest))) in Hm.
    apply in_map_iff in Hm. destruct Hm as [r [E Hr]]. now exists r.
Qed.

Lemma aggregate_summary_of_results_witness :
  let results := runs_of "suite.test_a" ["passed"; "unknown"] in
  let s := BuildSummary.mk "1" 0 "main" "pytest" 2 1 0 0 0 (0 + 1 + 1)
             (pass_rate_of 1 2) in
  In s (aggregate results) /\
  exists r, In r results /\
            TestResult.timestamp r = BuildSummary.timestamp s.
Proof.
  intros results s.
  assert (H : In s (aggregate results)) by (left; reflexivity).
  split; [exact H|].
  destruct (aggregate_summary_of_results results s H)
    as (first & rest & E & _ & _ & _ & _ & r & Hr & Ht).
  exists r. split; [|exact Ht].
  rewrite <- E in Hr. unfold results_of_build in Hr.
  apply filter_In in Hr. exact (proj1 Hr).
Defined.

(* ================================================================== *)
(** ** Loading: the summary collection *)

Lemma aggregate_length (results : list TestResult.t) :
  List.length (aggregate results)
  = List.length (first_seen (map TestResult.build_number results)).
Proof.
  destruct (aggregate_as_map results) as (f & -> & _). apply length_map.
Qed.

(** X8.  [_load_build_summaries] keeps the results as they are and
    leaves a collection that is sorted by timestamp and holds exactly the
    summaries held before together with the summaries of all builds of
    the results held. *)
Theorem load_build_summaries_sorted_union (self : TrendAnalyzer.t) :
  chronological (TrendAnalyzer.build_summaries (_load_build_summaries self))
  /\ Permutation
       (TrendAnalyzer.build_summaries self
          ++ aggregate (TrendAnalyzer.test_results self))
       (TrendAnalyzer.build_summaries (_load_build_summaries self))
  /\ TrendAnalyzer.test_results (_load_build_summaries self)
     = TrendAnalyzer.test_results self.
Proof.
  split; [apply load_build_summaries_chronological|].
  split; [apply sort_by_key_perm | reflexivity].
Qed.

(** The results held after a directory has been read. *)
Lemma load_results_test_results self now files :
  exists parsed,
    TrendAnalyzer.test_results
      (load_results_from_directory self now (Some files))
    = TrendAnalyzer.test_results self ++ parsed /\
    forall r, In r parsed <->
      exists data, In (Some data) files /\
                   _parse_test_result (TrendAnalyzer.framework self) now data
                   = Some r.
Proof.
  cbn [load_results_from_directory _load_build_summaries
       TrendAnalyzer.test_results].
  exists (flat_map
            (fun file =>
               match file with
               | Some data =>
                 match _parse_test_result (TrendAnalyzer.framework self)
                         now data with
                 | Some r => [r]
                 | None => []
                 end
               | None => []
               end) files).
  split.
  - apply fold_left_appending. intros acc [data|]; [|now rewrite app_nil_r].
    destruct (_parse_test_result _ _ _); [reflexivity | now rewrite app_nil_r].
  - intros r. rewrite in_flat_map. split.
    + intros [[data|] [Hin Hr]]; [|destruct Hr].
      exists data. split; [exact Hin|].
      destruct (_parse_test_result _ _ _) as [r'|]; [|destruct Hr].
      destruct Hr as [->|[]]. reflexivity.
    + intros [data [Hin Hr]]. exists (Some data). split; [exact Hin|].
      rewrite Hr. now left.
Qed.

(** X9.  Reading a result directory appends the results that parse, in
    file order, and then adds one summary for every build among all the
    results held, those of earlier calls included: a build loaded before
    is summarised again by each later call, even for an empty directory. *)
Theorem load_results_summarises_all_builds_again self now files :
  let self' := load_results_from_directory self now (Some files) in
  (exists parsed,
     TrendAnalyzer.test_results self'
     = TrendAnalyzer.test_results self ++ parsed /\
     forall r, In r parsed <->
       exists data, In (Some data) files /\
                    _parse_test_result (TrendAnalyzer.framework self) now data
                    = Some r)
  /\ List.length (TrendAnalyzer.build_summaries self')
     = (List.length (TrendAnalyzer.build_summaries self)
        + List.length
            (first_seen
               (map TestResult.build_number
                  (TrendAnalyzer.test_results self'))))%nat
  /\ chronological (TrendAnalyzer.build_summaries self').
Proof.
  intros self'. split; [apply load_results_test_results|].
  split.
  - unfold self'.
    cbn [load_results_from_directory _load_build_summaries
         TrendAnalyzer.build_summaries TrendAnalyzer.test_results].
    rewrite sort_by_key_length, length_app. f_equal.
    apply aggregate_length.
  - unfold self'. cbn [load_results_from_directory].
    apply load_build_summaries_chronological.
Qed.

(* ================================================================== *)
(** ** History importer *)


(* ================================================================== *)
(** ** Trend engine: the metrics as a whole *)

Lemma analyze_trend_value (values : list Q) (reverse : bool) :
  _analyze_trend values reverse = Ok (trend_of_series values reverse).
Proof.
  unfold trend_of_series.
  destruct (List.length values <? 3)%nat eqn:E.
  - apply Nat.ltb_lt in E. now apply analyze_trend_short.
  - apply Nat.ltb_ge in E. now apply analyze_trend_slope.
Qed.

Lemma mean_or_zero_nonempty (x : Q) (xs : list Q) :
  mean_or_zero (x :: xs) = Ok (average (x :: xs)).
Proof. reflexivity. Qed.

(** What [analyze_trends] returns, field by field. *)
Lemma analyze_trends_value self now days_back :
  analyze_trends self now days_back =
  Ok (match recent_builds self now days_back with
      | [] => no_data
      | _ :: _ =>
        TrendMetrics.mk
          (average (map BuildSummary.pass_rate
                      (recent_builds self now days_back)))
          (trend_of_series
             (map BuildSummary.pass_rate (recent_builds self now days_back))
             false)
          (average (map BuildSummary.duration
                      (recent_builds self now days_back)))
          (trend_of_series
             (map BuildSummary.duration (recent_builds self now days_back))
             true)
          (Py.len (recent_builds self now days_back))
          (firstn 10
             (filter
                (fun name =>
                   flagged_flaky
                     (statuses_of (in_window self now days_back) name))
                (names_in_window self now days_back)))
          (_identify_most_failed_tests self now days_back)
          (_analyze_failure_categories self now days_back)
          (firstn 10
             (filter
                (fun name =>
                   flagged_regression
                     (points_of (in_window self now days_back) name))
                (names_in_window self now days_back)))
      end).
Proof.
  unfold analyze_trends, recent_builds, cutoff_date.
  destruct (TrendAnalyzer.build_summaries self) as [|b bs] eqn:Eb;
    [reflexivity|].
  destruct (filter _ (b :: bs)) as [|r rs] eqn:Er; [reflexivity|].
  cbn [map]. rewrite !mean_or_zero_nonempty. cbn [bind].
  rewrite !analyze_trend_value. cbn [bind].
  rewrite identify_flaky_tests_spec. cbn [bind].
  rewrite identify_performance_regressions_spec. cbn [bind].
  reflexivity.
Qed.


Lemma Ok_inj {A : Type} (a b : A) : Ok a = Ok b -> a = b.
Proof. intros H. now injection H. Qed.

Lemma filter_length_monotone {A : Type} (p q : A -> bool) (xs : list A) :
  (forall x, p x = true -> q x = true) ->
  (List.length (filter p xs) <= List.length (filter q xs))%nat.
Proof.
  intros H. induction xs as [|x xs IH]; simpl; [lia|].
  destruct (p x) eqn:Ep.
  - rewrite (H x Ep). simpl. lia.
  - destruct (q x); simpl; lia.
Qed.

(** X12.  With the same clock reading, a longer window never counts
    fewer builds: [total_builds] is monotone in [days_back]. *)
Theorem analyze_trends_window_monotone self now days1 days2 m1 m2 :
  (days1 <= days2)%Z ->
  analyze_trends self now days1 = Ok m1 ->
  analyze_trends self now days2 = Ok m2 ->
  (TrendMetrics.total_builds m1 <= TrendMetrics.total_builds m2)%Z.
Proof.
  intros Hd H1 H2.
  rewrite analyze_trends_value in H1, H2.
  injection H1 as <-. injection H2 as <-.
  assert (Hlen : (Py.len (recent_builds self now days1)
                  <= Py.len (recent_builds self now days2))%Z).
  { unfold Py.len, recent_builds. apply inj_le, filter_length_monotone.
    intros b Hb. apply Z.leb_le in Hb. apply Z.leb_le. lia. }
  destruct (recent_builds self now days1), (recent_builds self now days2);
    cbn [TrendMetrics.total_builds no_data]; unfold Py.len in *;
    simpl in *; lia.
Qed.

Lemma analyze_trends_window_monotone_witness :
  exists m1 m2,
    analyze_trends results_then_history 6000000 7 = Ok m1 /\
    analyze_trends results_then_history 6000000 30 = Ok m2 /\
    (TrendMetrics.total_builds m1 <= TrendMetrics.total_builds m2)%Z.
Proof.
  destruct (analyze_trends results_then_history 6000000 7) as [m1|] eqn:E1;
    [|vm_compute in E1; discriminate].
  destruct (analyze_trends results_then_history 6000000 30) as [m2|] eqn:E2;
    [|vm_compute in E2; discriminate].
  exists m1, m2. split; [reflexivity|]. split; [reflexivity|].
  apply (@analyze_trends_window_monotone results_then_history 6000000 7 30);
    [lia | exact E1 | exact E2].
Defined.


Lemma In_skipn {A : Type} (n : nat) (l : list A) (x : A) :
  In x (skipn n l) -> In x l.
Proof.
  intros H. rewrite <- (firstn_skipn n l). apply in_app_iff. now right.
Qed.





(* ================================================================== *)
(** ** Most failed tests and failure categories *)

Section ReverseSort.

Context {A : Type} (key : A -> Z).

Lemma stable_sort_ext (le1 le2 : A -> A -> bool) (l : list A) :
  (forall x y, le1 x y = le2 x y) ->
  Py.stable_sort le1 l = Py.stable_sort le2 l.
Proof.
  intros H. induction l as [|x l IH]; [reflexivity|].
  cbn [Py.stable_sort]. rewrite IH.
  generalize (Py.stable_sort le2 l) as s. intros s.
  induction s as [|y s IHs]; [reflexivity|].
  cbn [Py.insert_by]. rewrite H, IHs. reflexivity.
Qed.

Lemma sort_by_key_reverse_negated (l : list A) :
  Py.sort_by_key_reverse key l = Py.sort_by_key (fun x => (- key x)%Z) l.
Proof.
  apply stable_sort_ext. intros x y.
  destruct (key y <=? key x)%Z eqn:E.
  - symmetry. apply Z.leb_le. apply Z.leb_le in E. lia.
  - symmetry. apply Z.leb_gt. apply Z.leb_gt in E. lia.
Qed.

Lemma Sorted_weaken (R R' : A -> A -> Prop) (l : list A) :
  (forall x y, R x y -> R' x y) -> Sorted R l -> Sorted R' l.
Proof.
  intros H S. induction S as [|x l S IH Hd]; constructor; [exact IH|].
  destruct Hd; constructor. now apply H.
Qed.

Lemma sort_by_key_reverse_perm (l : list A) :
  Permutation l (Py.sort_by_key_reverse key l).
Proof. rewrite sort_by_key_reverse_negated. apply sort_by_key_perm. Qed.

Lemma sort_by_key_reverse_descending (l : list A) :
  Sorted (fun x y => (key y <= key x)%Z) (Py.sort_by_key_reverse key l).
Proof.
  rewrite sort_by_key_reverse_negated.
  eapply Sorted_weaken; [|apply sort_by_key_sorted].
  cbv beta. intros x y H. lia.
Qed.

Lemma negated_key_filter (l : list A) (k : Z) :
  filter (fun a => (- key a =? - k)%Z) l = filter (fun a => (key a =? k)%Z) l.
Proof.
  apply filter_ext. intros a. destruct (key a =? k)%Z eqn:E.
  - apply Z.eqb_eq. apply Z.eqb_eq in E. lia.
  - apply Z.eqb_neq. apply Z.eqb_neq in E. lia.
Qed.

Lemma sort_by_key_reverse_stable (l : list A) (k : Z) :
  filter (fun a => (key a =? k)%Z) (Py.sort_by_key_reverse key l) =
  filter (fun a => (key a =? k)%Z) l.
Proof.
  rewrite sort_by_key_reverse_negated, <- !negated_key_filter.
  apply (sort_by_key_stable (fun a => (- key a)%Z)).
Qed.

End ReverseSort.

Lemma filter_and {A : Type} (p q : A -> bool) (xs : list A) :
  filter (fun x => p x && q x) xs = filter q (filter p xs).
Proof.
  induction xs as [|x xs IH]; simpl; [reflexivity|].
  destruct (p x); simpl; [destruct (q x)|]; now rewrite IH.
Qed.

Lemma recent_failures_in_window self now days_back :
  recent_failures self now days_back = failures_in_window self now days_back.
Proof. unfold recent_failures, failures_in_window. apply filter_and. Qed.

Lemma occurrences_of_map {A : Type} (key : A -> string) (xs : list A)
    (k : string) :
  occurrences k (map key xs) = how_many (fun x => String.eqb (key x) k) xs.
Proof.
  unfold occurrences, how_many. f_equal.
  induction xs as [|x xs IH]; [reflexivity|]. cbn [map filter].
  destruct (String.eqb (key x) k); cbn [List.length]; now rewrite IH.
Qed.

(** X14.  The most failed tests are the first ten entries of a ranking
    of the (name, count) pairs of the failures inside the window, where
    only status [failed] counts: the ranking holds each failed name once
    with its number of failures, is in descending order of count, and
    keeps names with equal counts in the order in which they first
    failed. *)
Theorem most_failed_tests_ranking self now days_back :
  exists ranked,
    _identify_most_failed_tests self now days_back = firstn 10 ranked /\
    Permutation (failure_counts self now days_back) ranked /\
    Sorted (fun a b => (snd b <= snd a)%Z) ranked /\
    (forall c,
       filter (fun e => (snd e =? c)%Z) ranked
       = filter (fun e => (snd e =? c)%Z)
           (failure_counts self now days_back)) /\
    NoDup (map fst ranked) /\
    (forall name count, In (name, count) ranked ->
       (1 <= count)%Z /\
       count = how_many (fun r => String.eqb (TestResult.name r) name)
                 (failures_in_window self now days_back)).
Proof.
  exists (Py.sort_by_key_reverse snd (failure_counts self now days_back)).
  assert (Hc : Py.Counter
                 (map TestResult.name (recent_failures self now days_back))
               = failure_counts self now days_back).
  { rewrite recent_failures_in_window. apply Counter_spec. }
  pose proof (sort_by_key_reverse_perm snd (failure_counts self now days_back))
    as P.
  split; [unfold _identify_most_failed_tests, most_common; now rewrite Hc|].
  split; [exact P|].
  split; [apply sort_by_key_reverse_descending|].
  split; [intros c; apply sort_by_key_reverse_stable|].
  split.
  - eapply Permutation_NoDup; [apply Permutation_map, P|].
    unfold failure_counts. cbv zeta. rewrite map_map. cbn [fst].
    rewrite map_id. apply first_seen_NoDup.
  - intros name count Hin.
    eapply Permutation_in in Hin; [|apply Permutation_sym, P].
    unfold failure_counts in Hin. cbv zeta in Hin.
    apply in_map_iff in Hin. destruct Hin as [k [E Hk]].
    injection E as -> <-. rewrite first_seen_In in Hk.
    split; [now apply occurrences_present|].
    apply occurrences_of_map.
Qed.

Section Categories.

Lemma occurrences_cons (x k : string) (xs : list string) :
  occurrences k (x :: xs) =
  ((if String.eqb x k then 1 else 0) + occurrences k xs)%Z.
Proof.
  unfold occurrences, how_many. cbn [filter].
  destruct (String.eqb x k); cbn [List.length]; lia.
Qed.

Lemma occurrences_truthy_categories (rs : list TestResult.t) (c : string) :
  c <> "" ->
  occurrences c (truthy_categories rs) = how_many (has_category c) rs.
Proof.
  intros Hc. induction rs as [|r rs IH]; [reflexivity|].
  unfold truthy_categories in *. cbn [flat_map].
  unfold how_many in *. cbn [filter]. unfold has_category at 1.
  destruct (TestResult.category r) as [c'|]; [|exact IH].
  destruct c' as [|a c'']; cbn [Str.truthy app].
  - destruct c; [congruence | exact IH].
  - rewrite occurrences_cons, IH.
    destruct (String.eqb (String a c'') c); cbn [List.length]; lia.
Qed.

Lemma truthy_categories_length (rs : list TestResult.t) :
  Py.len (truthy_categories rs) = how_many has_truthy_category rs.
Proof.
  unfold Py.len, how_many, truthy_categories, has_truthy_category.
  induction rs as [|r rs IH]; [reflexivity|]. cbn [flat_map filter].
  rewrite length_app.
  destruct (TestResult.category r) as [c|]; [|exact IH].
  destruct (Str.truthy c); cbn [List.length]; lia.
Qed.

Lemma truthy_categories_nonempty (rs : list TestResult.t) (c : string) :
  In c (truthy_categories rs) -> c <> "".
Proof.
  unfold truthy_categories. rewrite in_flat_map. intros [r [_ H]].
  destruct (TestResult.category r) as [c'|]; [|destruct H].
  destruct c'; simpl in H; [destruct H|]. destruct H as [<-|[]].
  discriminate.
Qed.

Lemma failure_categories_value self now days_back :
  _analyze_failure_categories self now days_back =
  map (fun c =>
         (c, occurrences c
               (truthy_categories (failures_in_window self now days_back))))
    (first_seen (truthy_categories (failures_in_window self now days_back))).
Proof.
  unfold _analyze_failure_categories.
  rewrite recent_failures_in_window. apply Counter_spec.
Qed.

Lemma truthy_categories_In (rs : list TestResult.t) (c : string) :
  In c (truthy_categories rs) ->
  exists r, In r rs /\ TestResult.category r = Some c.
Proof.
  unfold truthy_categories. rewrite in_flat_map. intros [r [Hr H]].
  exists r. split; [exact Hr|].
  destruct (TestResult.category r) as [c'|]; [|destruct H].
  destruct (Str.truthy c'); [|destruct H]. destruct H as [<-|[]].
  reflexivity.
Qed.

Lemma failure_categories_sum self now days_back :
  Py.sum_int (map snd (_analyze_failure_categories self now days_back))
  = how_many has_truthy_category (failures_in_window self now days_back).
Proof.
  rewrite failure_categories_value, map_map. cbn [snd]. unfold occurrences.
  rewrite (@filed_lengths_add_up _ (fun x : string => x)
             (truthy_categories (failures_in_window self now days_back))
             (first_seen
                (truthy_categories (failures_in_window self now days_back)))).
  - apply truthy_categories_length.
  - apply first_seen_NoDup.
  - intros x Hx. now apply first_seen_In.
Qed.

End Categories.

(** X15.  The failure-category mapping has one entry per non-empty
    category carried by a result of status [failed] inside the window,
    and its count is the number of those results with that category;
    results of any other status, and results without a category, add
    nothing.  The counts add up to the number of failed results inside
    the window that carry a non-empty category. *)
Theorem failure_categories_histogram self now days_back :
  let failures := failures_in_window self now days_back in
  let histogram := _analyze_failure_categories self now days_back in
  NoDup (map fst histogram) /\
  (forall c n,
     In (c, n) histogram <->
     c <> "" /\ (1 <= n)%Z /\ n = how_many (has_category c) failures) /\
  Py.sum_int (map snd histogram) = how_many has_truthy_category failures.
Proof.
  intros failures histogram. unfold histogram.
  rewrite failure_categories_value. fold failures.
  set (cats := truthy_categories failures).
  split; [|split].
  - rewrite map_map. cbn [fst]. rewrite map_id. apply first_seen_NoDup.
  - intros c n. rewrite in_map_iff. split.
    + intros [k [E Hk]]. injection E as -> <-. rewrite first_seen_In in Hk.
      pose proof (@truthy_categories_nonempty _ _ Hk) as Hne.
      split; [exact Hne|]. split; [now apply occurrences_present|].
      now apply occurrences_truthy_categories.
    + intros (Hne & Hn & ->). exists c.
      rewrite <- (@occurrences_truthy_categories failures c Hne) in Hn |- *.
      split; [reflexivity|]. rewrite first_seen_In.
      fold cats in Hn.
      destruct (in_dec string_dec c cats) as [Hin|Hout]; [exact Hin|].
      rewrite (@occurrences_absent _ _ Hout) in Hn. lia.
  - unfold cats, failures. rewrite <- failure_categories_sum.
    now rewrite failure_categories_value.
Qed.

Lemma categorised_failure (r : TestResult.t) :
  categorised r -> TestResult.status r = "failed" ->
  exists c, TestResult.category r = Some c /\ In c taxonomy /\
            c <> "passed" /\ c <> "".
Proof.
  intros Hc Hs. eexists. split; [exact Hc|].
  pose proof (categorize_test_in_taxonomy (TestResult.name r)
                (TestResult.status r) (TestResult.error_message r)) as Ht.
  split; [exact Ht|]. split.
  - intros E. apply categorize_test_passed_iff in E. congruence.
  - intros E. rewrite E in Ht. unfold taxonomy in Ht. simpl in Ht.
    intuition discriminate.
Qed.

(** X16.  When the results held are categorised as the parser does it,
    every key of the failure-category mapping is one of the six failure
    categories of the taxonomy, never [passed], and the counts add up to
    the number of failed results inside the window. *)
Theorem failure_categories_of_parsed_results self now days_back :
  Forall categorised (TrendAnalyzer.test_results self) ->
  let histogram := _analyze_failure_categories self now days_back in
  (forall c, In c (map fst histogram) -> In c taxonomy /\ c <> "passed") /\
  Py.sum_int (map snd histogram)
  = Py.len (failures_in_window self now days_back).
Proof.
  intros Hall histogram.
  assert (Hf : forall r, In r (failures_in_window self now days_back) ->
                         categorised r /\ TestResult.status r = "failed").
  { intros r Hr. unfold failures_in_window, in_window in Hr.
    apply filter_In in Hr. destruct Hr as [Hr Hs].
    apply filter_In in Hr. destruct Hr as [Hr _].
    split; [|now apply String.eqb_eq].
    rewrite Forall_forall in Hall. now apply Hall. }
  split.
  - intros c Hc. unfold histogram in Hc.
    rewrite failure_categories_value, map_map in Hc. cbn [fst] in Hc.
    rewrite map_id, first_seen_In in Hc.
    apply truthy_categories_In in Hc. destruct Hc as [r [Hr Hcat]].
    destruct (Hf r Hr) as [Hcz Hst].
    destruct (categorised_failure Hcz Hst) as (c0 & E0 & Ht & Hp & _).
    rewrite E0 in Hcat. injection Hcat as ->. now split.
  - unfold histogram. rewrite failure_categories_sum. apply how_many_all.
    apply Forall_forall. intros r Hr. destruct (Hf r Hr) as [Hcz Hst].
    destruct (categorised_failure Hcz Hst) as (c0 & E0 & _ & _ & Hne).
    unfold has_truthy_category. rewrite E0. now apply truthy_iff.
Qed.

(* ================================================================== *)
(** ** The loading sequence of [main] *)






Lemma failure_categories_of_parsed_results_witness :
  let self :=
    main_load "demo" "auto" 0 (Some [Some raw_failed_assertion]) None in
  Forall categorised (TrendAnalyzer.test_results self) /\
  _analyze_failure_categories self 2000000 30 = [("product_defect", 1%Z)] /\
  Py.sum_int (map snd (_analyze_failure_categories self 2000000 30))
  = Py.len (failures_in_window self 2000000 30).
Proof.
  intros self.
  assert (H : Forall categorised (TrendAnalyzer.test_results self))
    by (repeat constructor).
  split; [exact H|]. split; [reflexivity|].
  exact (proj2 (@failure_categories_of_parsed_results self 2000000 30 H)).
Defined.

(* ================================================================== *)
(** ** Trend direction: exact lines, negation and reversal *)

Section ExactLine.

Local Open Scope Q_scope.

Variables c d : Q.
Variable n : nat.






End ExactLine.



Section Negation.

Local Open Scope Q_scope.

Lemma sum_compat (xs ys : list Q) :
  Forall2 Qeq xs ys -> Py.sum xs == Py.sum ys.
Proof.
  induction 1 as [|x y xs ys E _ IH]; [reflexivity|].
  now rewrite !sum_cons, E, IH.
Qed.

Lemma nth_compat (xs ys : list Q) (i : nat) :
  Forall2 Qeq xs ys -> nth i xs 0 == nth i ys 0.
Proof.
  intros H. revert i. induction H as [|x y xs ys E _ IH]; intros i.
  - destruct i; reflexivity.
  - destruct i; [exact E | apply IH].
Qed.

Lemma regression_slope_compat (xs ys : list Q) :
  Forall2 Qeq xs ys -> regression_slope xs == regression_slope ys.
Proof.
  intros H. pose proof (Forall2_length H) as L.
  assert (Hn : numerator_of xs (Py.sum xs / inject_Z (Py.len xs))
               == numerator_of ys (Py.sum ys / inject_Z (Py.len ys))).
  { unfold numerator_of, Py.len. rewrite <- L. apply sum_map_ext.
    intros i _. now rewrite (nth_compat i H), (sum_compat H). }
  unfold regression_slope. rewrite Hn, L. reflexivity.
Qed.

Lemma negated_is_affine (values : list Q) :
  Forall2 Qeq (map Qopp values) (affine (-1) 0 values).
Proof.
  unfold affine. induction values as [|v vs IH]; simpl; constructor;
    [ring | exact IH].
Qed.

Lemma regression_slope_negated (values : list Q) :
  values <> [] ->
  regression_slope (map Qopp values) == - regression_slope values.
Proof.
  intros H. rewrite (regression_slope_compat (negated_is_affine values)).
  rewrite regression_slope_affine by exact H. ring.
Qed.

Lemma direction_opposite (s : Q) : direction (- s) = opposite (direction s).
Proof.
  destruct (direction_cases s) as [[H ->]|[[H ->]|[H ->]]]; cbn.
  - apply direction_declining. lra.
  - apply direction_improving. lra.
  - apply direction_stable. lra.
Qed.

End Negation.

(** X19.  Reading a series with [reverse] gives the opposite direction
    of reading it plainly, [improving] and [declining] exchanged and
    [stable] and [unknown] kept, and it gives the same direction as
    reading the negated series plainly. *)
Theorem analyze_trend_reverse (values : list Q) :
  exists trend,
    _analyze_trend values false = Ok trend /\
    _analyze_trend values true = Ok (opposite trend) /\
    _analyze_trend (map Qopp values) false = Ok (opposite trend) /\
    _analyze_trend (map Qopp values) true = Ok trend.
Proof.
  destruct (Nat.lt_ge_cases (List.length values) 3) as [H|H].
  - exists "unknown". rewrite !analyze_trend_short
      by (rewrite ?length_map; exact H).
    repeat split.
  - assert (Hne : values <> []) by (intros ->; simpl in H; lia).
    exists (direction (regression_slope values)).
    rewrite !analyze_trend_slope by (rewrite ?length_map; exact H).
    pose proof (regression_slope_negated Hne) as E.
    rewrite <- direction_opposite.
    repeat split; f_equal; apply direction_compat; rewrite ?E; ring.
Qed.

(* ================================================================== *)
(** ** Flaky tests and regressions: what the criteria ignore *)

Lemma occurrences_permutation (s : string) (xs ys : list string) :
  Permutation xs ys -> occurrences s xs = occurrences s ys.
Proof.
  intros P. unfold occurrences, how_many. f_equal.
  induction P as [|x xs ys P IH|x y xs|xs ys zs P1 IH1 P2 IH2]; cbn [filter].
  - reflexivity.
  - destruct (String.eqb x s); cbn [List.length]; now rewrite IH.
  - destruct (String.eqb x s), (String.eqb y s); reflexivity.
  - congruence.
Qed.

Lemma flaky_permutation (xs ys : list string) :
  Permutation xs ys -> flaky xs -> flaky ys.
Proof.
  intros P (Hl & (s1 & s2 & H1 & H2 & Hne) & Hshare).
  split; [now rewrite <- (Permutation_length P)|]. split.
  - exists s1, s2. repeat split; try assumption;
      eapply Permutation_in; eassumption.
  - intros s Hs. rewrite <- (occurrences_permutation s P).
    unfold Py.len. rewrite <- (Permutation_length P).
    apply Hshare. eapply Permutation_in; [apply Permutation_sym, P | exact Hs].
Qed.

(** X20.  Whether a test is flaky depends on how many runs it has of
    each status and not on their order: the loop body of
    [_identify_flaky_tests] takes the same decision for two status lists
    that are permutations of each other. *)
Theorem flaky_step_ignores_order (flaky_tests : list string) (name : string)
    (statuses statuses' : list string) :
  Permutation statuses statuses' ->
  flaky_step flaky_tests (name, statuses)
  = flaky_step flaky_tests (name, statuses').
Proof.
  intros P. rewrite !flaky_step_decides. cbn [fst snd].
  assert (E : flagged_flaky statuses = flagged_flaky statuses').
  { destruct (flagged_flaky statuses) eqn:E1,
             (flagged_flaky statuses') eqn:E2; try reflexivity.
    - apply flagged_flaky_iff in E1.
      apply (flaky_permutation P), flagged_flaky_iff in E1. congruence.
    - apply flagged_flaky_iff in E2.
      apply (flaky_permutation (Permutation_sym P)), flagged_flaky_iff in E2.
      congruence. }
  now rewrite E.
Qed.

Lemma flaky_step_ignores_order_witness :
  Permutation ["passed"; "failed"; "passed"] ["failed"; "passed"; "passed"] /\
  flaky_step [] ("suite.test_a", ["passed"; "failed"; "passed"])
  = flaky_step [] ("suite.test_a", ["failed"; "passed"; "passed"]).
Proof.
  assert (P : Permutation ["passed"; "failed"; "passed"]
                          ["failed"; "passed"; "passed"])
    by apply perm_swap.
  split; [exact P|].
  exact (flaky_step_ignores_order [] "suite.test_a" P).
Defined.

Section Averages.

Local Open Scope Q_scope.

Lemma sum_le_bound (xs : list Q) (b : Q) :
  (forall x, In x xs -> x <= b) -> Py.sum xs <= b * inject_Z (Py.len xs).
Proof.
  unfold Py.len. induction xs as [|x xs IH]; intros H.
  - change (0 <= b * 0). lra.
  - rewrite sum_cons. cbn [List.length].
    rewrite Nat2Z.inj_succ, <- Z.add_1_r, inject_Z_plus.
    assert (x <= b) by (apply H; now left).
    assert (Py.sum xs <= b * inject_Z (Z.of_nat (List.length xs)))
      by (apply IH; intros; apply H; now right).
    set (m := inject_Z (Z.of_nat (List.length xs))) in *.
    assert (E : b * (m + inject_Z 1) == b * m + b)
      by (change (inject_Z 1) with 1; ring).
    rewrite E. lra.
Qed.

Lemma average_le_bound (xs : list Q) (b : Q) :
  xs <> [] -> (forall x, In x xs -> x <= b) -> average xs <= b.
Proof.
  intros Hne H. unfold average.
  assert (Hn : 0 < inject_Z (Py.len xs)).
  { unfold Py.len. change 0 with (inject_Z 0). rewrite <- Zlt_Qlt.
    destruct xs; [congruence | simpl; lia]. }
  apply Qle_shift_div_r; [exact Hn|]. now apply sum_le_bound.
Qed.

End Averages.

(** X21.  A test none of whose data points lasts longer than one second
    is never reported as a performance regression, however its durations
    have grown: the loop body of [_identify_performance_regressions]
    leaves the list as it is. *)
Theorem fast_test_is_no_regression (regressions : list string)
    (name : string) (points : list (Z * Q)) :
  (forall p, In p points -> (snd p <= 1)%Q) ->
  regression_step regressions (name, points) = Ok regressions.
Proof.
  intros Hfast. rewrite regression_step_decides. cbn [fst snd].
  destruct (flagged_regression points) eqn:E; [|now rewrite app_nil_r].
  exfalso. apply flagged_regression_iff in E. destruct E as (H5 & _ & H1).
  destruct (halves_nonempty points H5) as [_ Hne].
  assert (Hle : (average (recent_half points) <= 1)%Q).
  { apply average_le_bound; [exact Hne|].
    intros x Hx. unfold recent_half, chronological_durations in Hx.
    apply In_skipn, in_map_iff in Hx. destruct Hx as [p [<- Hp]].
    apply Hfast. eapply Permutation_in; [|exact Hp].
    apply Permutation_sym, sort_by_key_perm. }
  lra.
Qed.

Lemma fast_test_is_no_regression_witness :
  let points := [(1%Z, 0.1%Q); (2%Z, 0.1%Q); (3%Z, 0.1%Q); (4%Z, 0.9%Q);
                 (5%Z, 0.9%Q)] in
  regression_step [] ("suite.test_a", points) = Ok [].
Proof.
  intros points. apply fast_test_is_no_regression.
  intros p Hp. simpl in Hp.
  repeat (destruct Hp as [<-|Hp]; [vm_compute; discriminate|]).
  destruct Hp.
Defined.

(* ================================================================== *)
(** ** Report generation *)

(** X22.  [generate_report] never writes the JSON report together with
    the HTML report: format [json] gives the JSON file only, formats
    [html] and [all] give the HTML file only, in any letter case, and any
    other format gives no file. *)
Theorem report_files_by_format (format_type : string) :
  (List.length (report_files format_type) <= 1)%nat /\
  (Str.lower format_type = "json" ->
   report_files format_type = ["trend_analysis.json"]) /\
  (Str.lower format_type = "html" \/ Str.lower format_type = "all" ->
   report_files format_type = ["trend_analysis.html"]) /\
  (Str.lower format_type <> "json" -> Str.lower format_type <> "html" ->
   Str.lower format_type <> "all" -> report_files format_type = []) /\
  report_files "all" = ["trend_analysis.html"].
Proof.
  unfold report_files.
  destruct (String.eqb_spec (Str.lower format_type) "json") as [Ej|Ej];
  destruct (String.eqb_spec (Str.lower format_type) "html") as [Eh|Eh];
  destruct (String.eqb_spec (Str.lower format_type) "all") as [Ea|Ea];
  try congruence; cbn [orb app List.length];
  (split; [lia|]); (split; [intros; congruence|]);
  (split; [intros [?|?]; congruence|]);
  (split; [intros; congruence | reflexivity]).
Qed.

Lemma date_range_start_spec (summaries : list BuildSummary.t) :
  exists start,
    date_range_start_of summaries = Ok start /\
    (summaries = [] -> start = None) /\
    (summaries <> [] ->
     exists earliest,
       start = Some earliest /\
       In earliest (map BuildSummary.timestamp summaries) /\
       forall b, In b summaries ->
                 (earliest <= BuildSummary.timestamp b)%Z).
Proof.
  destruct summaries as [|b bs].
  - exists None. split; [reflexivity|]. split; [reflexivity|].
    intros H. now contradiction H.
  - assert (Hne : map BuildSummary.timestamp (b :: bs) <> []) by discriminate.
    destruct (min_spec Hne) as (m & Em & Hin & Hle).
    exists (Some m). unfold date_range_start_of. rewrite Em. cbn [bind].
    split; [reflexivity|]. split; [discriminate|]. intros _.
    exists m. split; [reflexivity|]. split; [exact Hin|].
    intros b' Hb'. apply Hle. now apply in_map.
Qed.

Lemma date_range_end_spec (summaries : list BuildSummary.t) :
  (summaries = [] -> date_range_end_of summaries = None) /\
  (summaries <> [] ->
   exists latest,
     date_range_end_of summaries = Some latest /\
     In latest (map BuildSummary.timestamp summaries) /\
     forall b, In b summaries -> (BuildSummary.timestamp b <= latest)%Z).
Proof.
  destruct summaries as [|b bs].
  { split; [reflexivity|]. intros H. now contradiction H. }
  split; [discriminate|]. intros _. eexists. split; [reflexivity|].
  destruct (max_from_spec (BuildSummary.timestamp b)
              (map BuildSummary.timestamp bs)) as [Hin Hle].
  split; [exact Hin|]. intros b' Hb'. apply Hle.
  change (In (BuildSummary.timestamp b')
            (map BuildSummary.timestamp (b :: bs))).
  now apply in_map.
Qed.

(** X23.  [generate_report] raises nothing while it builds the report:
    for every analyzer, every clock reading and every format it returns
    the report data and the names of the files written.  The data carry
    the three windows' metrics, the numbers of builds and of results
    held, and a date range that is absent exactly when no build is held
    and otherwise runs from the earliest to the latest build
    timestamp. *)
Theorem generate_report_returns self now_7d now_30d now_90d generated_at
    format_type :
  exists data,
    generate_report self now_7d now_30d now_90d generated_at format_type
    = Ok (data, report_files format_type) /\
    analyze_trends self now_7d 7 = Ok (Report.trends_7_days data) /\
    analyze_trends self now_30d 30 = Ok (Report.trends_30_days data) /\
    analyze_trends self now_90d 90 = Ok (Report.trends_90_days data) /\
    Report.total_builds (Report.summary data)
    = Py.len (TrendAnalyzer.build_summaries self) /\
    Report.total_test_results (Report.summary data)
    = Py.len (TrendAnalyzer.test_results self) /\
    (TrendAnalyzer.build_summaries self = [] ->
     Report.date_range_start (Report.summary data) = None /\
     Report.date_range_end (Report.summary data) = None) /\
    (TrendAnalyzer.build_summaries self <> [] ->
     exists earliest latest,
       Report.date_range_start (Report.summary data) = Some earliest /\
       Report.date_range_end (Report.summary data) = Some latest /\
       In earliest
         (map BuildSummary.timestamp (TrendAnalyzer.build_summaries self)) /\
       In latest
         (map BuildSummary.timestamp (TrendAnalyzer.build_summaries self)) /\
       forall b, In b (TrendAnalyzer.build_summaries self) ->
         (earliest <= BuildSummary.timestamp b <= latest)%Z).
Proof.
  unfold generate_report, report_data.
  rewrite !analyze_trends_value. cbn [bind].
  destruct (date_range_start_spec (TrendAnalyzer.build_summaries self))
    as (start & Es & Hs0 & Hs1).
  destruct (date_range_end_spec (TrendAnalyzer.build_summaries self))
    as (He0 & He1).
  rewrite Es. cbn [bind]. eexists. split; [reflexivity|].
  cbn [Report.trends_7_days Report.trends_30_days Report.trends_90_days
       Report.summary Report.total_builds Report.total_test_results
       Report.date_range_start Report.date_range_end].
  repeat (split; [reflexivity|]). split.
  - intros E. split; [now apply Hs0 | now apply He0].
  - intros Hne. destruct (Hs1 Hne) as (lo & -> & Hlo & Hle).
    destruct (He1 Hne) as (hi & -> & Hhi & Hge).
    exists lo, hi. repeat split; try assumption; [apply Hle | apply Hge];
      assumption.
Qed.

(** X24.  When the report is generated quickly enough for the three
    windows to nest (the 30-day analysis starts within 23 days of the
    7-day one, the 90-day analysis within 60 days of the 30-day one), the
    build counts nest as well: the 7-day count is at most the 30-day
    count, that is at most the 90-day count, and that is at most the
    number of builds held. *)
Theorem report_windows_nest self now_7d now_30d now_90d generated_at data :
  (now_30d - now_7d <= 23 * 86400000000)%Z ->
  (now_90d - now_30d <= 60 * 86400000000)%Z ->
  report_data self now_7d now_30d now_90d generated_at = Ok data ->
  (TrendMetrics.total_builds (Report.trends_7_days data)
   <= TrendMetrics.total_builds (Report.trends_30_days data)
   <= TrendMetrics.total_builds (Report.trends_90_days data))%Z /\
  (TrendMetrics.total_builds (Report.trends_90_days data)
   <= Report.total_builds (Report.summary data))%Z.
Proof.
  intros H1 H2. unfold report_data.
  rewrite !analyze_trends_value. cbn [bind].
  destruct (date_range_start_of _); cbn [bind]; [|discriminate].
  intros H. apply Ok_inj in H. subst data.
  cbn [Report.trends_7_days Report.trends_30_days Report.trends_90_days
       Report.summary Report.total_builds].
  assert (Hcount : forall now days,
    TrendMetrics.total_builds
      match recent_builds self now days with
      | [] => no_data
      | _ :: _ =>
        TrendMetrics.mk
          (average (map BuildSummary.pass_rate (recent_builds self now days)))
          (trend_of_series
             (map BuildSummary.pass_rate (recent_builds self now days)) false)
          (average (map BuildSummary.duration (recent_builds self now days)))
          (trend_of_series
             (map BuildSummary.duration (recent_builds self now days)) true)
          (Py.len (recent_builds self now days))
          (firstn 10
             (filter
                (fun name =>
                   flagged_flaky (statuses_of (in_window self now days) name))
                (names_in_window self now days)))
          (_identify_most_failed_tests self now days)
          (_analyze_failure_categories self now days)
          (firstn 10
             (filter
                (fun name =>
                   flagged_regression
                     (points_of (in_window self now days) name))
                (names_in_window self now days)))
      end = Py.len (recent_builds self now days)).
  { intros now days. destruct (recent_builds self now days); reflexivity. }
  rewrite !Hcount. unfold Py.len, recent_builds.
  pose proof (filter_length_monotone
    (fun b => (now_7d - 7 * 86400000000 <=? BuildSummary.timestamp b)%Z)
    (fun b => (now_30d - 30 * 86400000000 <=? BuildSummary.timestamp b)%Z)
    (TrendAnalyzer.build_summaries self)) as M1.
  pose proof (filter_length_monotone
    (fun b => (now_30d - 30 * 86400000000 <=? BuildSummary.timestamp b)%Z)
    (fun b => (now_90d - 90 * 86400000000 <=? BuildSummary.timestamp b)%Z)
    (TrendAnalyzer.build_summaries self)) as M2.
  pose proof (filter_length_le
    (fun b => (now_90d - 90 * 86400000000 <=? BuildSummary.timestamp b)%Z)
    (TrendAnalyzer.build_summaries self)) as M3.
  assert (L1 : (List.length (filter
      (fun b => (now_7d - 7 * 86400000000 <=? BuildSummary.timestamp b)%Z)
      (TrendAnalyzer.build_summaries self))
    <= List.length (filter
      (fun b => (now_30d - 30 * 86400000000 <=? BuildSummary.timestamp b)%Z)
      (TrendAnalyzer.build_summaries self)))%nat).
  { apply M1. intros b Hb. apply Z.leb_le in Hb. apply Z.leb_le. lia. }
  assert (L2 : (List.length (filter
      (fun b => (now_30d - 30 * 86400000000 <=? BuildSummary.timestamp b)%Z)
      (TrendAnalyzer.build_summaries self))
    <= List.length (filter
      (fun b => (now_90d - 90 * 86400000000 <=? BuildSummary.timestamp b)%Z)
      (TrendAnalyzer.build_summaries self)))%nat).
  { apply M2. intros b Hb. apply Z.leb_le in Hb. apply Z.leb_le. lia. }
  lia.
Qed.

Lemma report_windows_nest_witness :
  exists data,
    report_data results_then_history 6000000 6000001 6000002 6000003
    = Ok data /\
    (TrendMetrics.total_builds (Report.trends_90_days data)
     <= Report.total_builds (Report.summary data))%Z.
Proof.
  destruct (report_data results_then_history 6000000 6000001 6000002 6000003)
    as [data|] eqn:E; [|vm_compute in E; discriminate].
  exists data. split; [reflexivity|].
  apply (@report_windows_nest results_then_history 6000000 6000001 6000002
           6000003 data); [lia | lia | exact E].
Defined.

(* ================================================================== *)
(** ** Failure classifier: letter case *)

Lemma truthy_lower (s : string) : Str.truthy (Str.lower s) = Str.truthy s.
Proof. destruct s; reflexivity. Qed.

(** X25.  The category depends on the error message only up to letter
    case: two messages with the same lower-case form are classified
    alike, so a keyword is recognised however it is capitalised.  The
    status is compared as it is: only the exact string [passed] gives
    the category [passed]. *)
Theorem categorize_test_ignores_case name status msg msg' :
  Str.lower msg = Str.lower msg' ->
  _categorize_test name status (Some msg)
  = _categorize_test name status (Some msg')
  /\ _categorize_test name status (Some (Str.lower msg))
     = _categorize_test name status (Some msg)
  /\ (status <> "passed" ->
      _categorize_test name status (Some msg) <> "passed").
Proof.
  intros E.
  assert (L : forall m, _categorize_test name status (Some (Str.lower m))
                        = _categorize_test name status (Some m)).
  { intros m. unfold _categorize_test.
    now rewrite truthy_lower, lower_idempotent. }
  split; [now rewrite <- (L msg), <- (L msg'), E|]. split; [apply L|].
  intros Hs H. apply categorize_test_passed_iff in H. contradiction.
Qed.

Lemma categorize_test_ignores_case_witness :
  Str.lower "ASSERTION failed" = Str.lower "Assertion Failed" /\
  _categorize_test "suite.test_a" "failed" (Some "ASSERTION failed")
  = _categorize_test "suite.test_a" "failed" (Some "Assertion Failed").
Proof.
  assert (E : Str.lower "ASSERTION failed" = Str.lower "Assertion Failed")
    by reflexivity.
  split; [exact E|].
  exact (proj1 (@categorize_test_ignores_case "suite.test_a" "failed"
                  "ASSERTION failed" "Assertion Failed" E)).
Defined.
